(** * MarketDataFrame: a shallow embedding of [DataFrame.h]

  The header defines two class templates:
    - [Data<T>]      : asset -> feature -> value, two nested [std::unordered_map]s;
    - [DataFrame<T>] : [std::map<ptime, Data<T>>] together with the asset
                       index and the list of date formats, filled by [fromCSV].

  Part I embeds the code, Part II states and proves its properties. *)

From Stdlib Require Import ZArith Lia List String Ascii Sorted Permutation.
From stdpp Require Import gmap strings list fin_maps sorting.

Local Open Scope Z_scope.
Set Warnings "-clear-no-such-hyp".

(* ===================================================================== *)
(** * Part I: the embedding                                               *)
(* ===================================================================== *)

(** ** C++ notions the header relies on *)

Module Cxx.

(** The exceptions that can be raised inside the header:
    [throw std::exception()] in [fromCSV], the [std::out_of_range] of
    [std::vector::at] and [std::map::at], and the
    [boost::escaped_list_error] of the tokenizer. *)
Inductive exn := std_exception | out_of_range | escaped_list_error.

(** How the execution of a function body ends.  [Aborts] is the end of the
    process: [std::terminate] or a failed assertion. *)
Inductive completion := Normal | Throws (e : exn) | Aborts.

(** A function declared [noexcept]: an exception that reaches the outermost
    block of the function calls [std::terminate]. *)
Definition noexcept {S : Type} (r : S * completion) : S * completion :=
  match r with
  | (s, Throws _) => (s, Aborts)
  | _ => r
  end.

(** What the header needs from its template parameter [T]:
    [T temp {}] (value initialisation), [T t;] (default initialisation) and
    [ss >> val] on a [std::istringstream] over a given text, as a function of
    the text and of the previous content of [val]. *)
Class ValueType (T : Type) := {
  value_init : T;
  default_init : T;
  stream_extract : string → T → T
}.

(** A scalar object either holds a value or, after [T t;], an indeterminate
    one. *)
Inductive scalar (A : Type) := Det (a : A) | Indeterminate.
Arguments Det {A} a.
Arguments Indeterminate {A}.

(** *** The instance [T = int] *)

Definition isspace (c : ascii) : bool :=
  let n := Z.of_N (N_of_ascii c) in
  (n =? 32) || ((9 <=? n) && (n <=? 13)).

Definition digit_of (c : ascii) : option Z :=
  let n := Z.of_N (N_of_ascii c) in
  if (48 <=? n) && (n <=? 57) then Some (n - 48) else None.

Fixpoint skipws (s : string) : string :=
  match s with
  | String c r => if isspace c then skipws r else s
  | EmptyString => s
  end.

(** The longest prefix of decimal digits, accumulated; [None] when the text
    does not start with a digit. *)
Fixpoint digits (s : string) (acc : option Z) : option Z :=
  match s with
  | String c r =>
      match digit_of c with
      | Some d => digits r (Some (10 * default 0 acc + d))
      | None => acc
      end
  | EmptyString => acc
  end.

Definition INT_MIN : Z := - 2 ^ 31.
Definition INT_MAX : Z := 2 ^ 31 - 1.
Definition clamp_int (z : Z) : Z := Z.max INT_MIN (Z.min INT_MAX z).

(** [ss >> val] for [int val]: leading white space is skipped; at end of
    input the sentry fails and [val] is left as it was; otherwise an optional
    sign and decimal digits are read, [0] is stored when there is no digit and
    the nearest bound when the number does not fit. *)
Definition int_extract (s : string) (val : scalar Z) : scalar Z :=
  match skipws s with
  | EmptyString => val
  | String c r =>
      let n := Z.of_N (N_of_ascii c) in
      let '(neg, body) :=
        if n =? 45 then (true, r)
        else if n =? 43 then (false, r)
        else (false, String c r) in
      match digits body None with
      | None => Det 0
      | Some m => Det (clamp_int (if neg then - m else m))
      end
  end.

#[global] Instance int_ValueType : ValueType (scalar Z) := {
  value_init := Det 0;
  default_init := Indeterminate;
  stream_extract := int_extract
}.

End Cxx.

(** ** [std::map<Key, V>] with integer keys

  The ordered map is the list of its entries in the order of iteration.
  [emplace] puts a new key at its place in the order and leaves the map alone
  when the key is present. *)

Module StdMap.
Section StdMap.
Context {V : Type}.

Fixpoint find (k : Z) (m : list (Z * V)) : option V :=
  match m with
  | [] => None
  | (k', v) :: m' => if k =? k' then Some v else find k m'
  end.

Fixpoint emplace (k : Z) (v : V) (m : list (Z * V)) : list (Z * V) :=
  match m with
  | [] => [(k, v)]
  | (k', v') :: m' =>
      if k <? k' then (k, v) :: m
      else if k =? k' then m
      else (k', v') :: emplace k v m'
  end.

Fixpoint erase (k : Z) (m : list (Z * V)) : list (Z * V) :=
  match m with
  | [] => []
  | (k', v) :: m' => if k =? k' then m' else (k', v) :: erase k m'
  end.

(** Assignment through the reference returned by [at(k)]. *)
Fixpoint assign (k : Z) (v : V) (m : list (Z * V)) : list (Z * V) :=
  match m with
  | [] => []
  | (k', v') :: m' => if k =? k' then (k, v) :: m' else (k', v') :: assign k v m'
  end.

Definition size (m : list (Z * V)) : nat := length m.
Definition empty (m : list (Z * V)) : bool :=
  match m with [] => true | _ => false end.

(** The keys met from [begin()] to [end()], and from [rbegin()] to [rend()]. *)
Definition forward (m : list (Z * V)) : list Z := fst <$> m.
Definition backward (m : list (Z * V)) : list Z := fst <$> reverse m.

(** The representation invariant of the ordered map. *)
Definition ordered (m : list (Z * V)) : Prop := StronglySorted Z.lt (forward m).

(** A map filled by [emplace] calls, one per key of [ks], in that order. *)
Definition emplace_all (ks : list Z) (v : V) : list (Z * V) :=
  foldl (λ m k, emplace k v m) [] ks.

End StdMap.
End StdMap.

(** ** [class Data<T>] *)

Module Data.
Section Data.
Context {T : Type} `{!Cxx.ValueType T}.

Definition size (data : gmap string (gmap string T)) : nat := map_size data.
Definition empty (data : gmap string (gmap string T)) : bool := bool_decide (data = ∅).

Definition setData (data : gmap string (gmap string T)) (asset feature : string) (val : T)
  : gmap string (gmap string T) :=
  match data !! asset with
  | None => <[asset := {[feature := val]}]> data
  | Some type_map =>
      match type_map !! feature with
      | None => <[asset := <[feature := val]> type_map]> data
      | Some _ => data
      end
  end.

Definition getData (data : gmap string (gmap string T)) (asset feature : string) : T :=
  if negb (empty data) then
    match data !! asset with
    | Some got_asset =>
        match got_asset !! feature with
        | Some got_type => got_type
        | None => Cxx.value_init
        end
    | None => Cxx.value_init
    end
  else Cxx.value_init.

(** The entry of a pair, if the store has one. *)
Definition entry (data : gmap string (gmap string T)) (asset feature : string) : option T :=
  data !! asset ≫= λ type_map, type_map !! feature.

(** A sequence of [setData] calls. *)
Definition setData_all (data : gmap string (gmap string T))
    (calls : list (string * string * T)) : gmap string (gmap string T) :=
  foldl (λ d call, setData d call.1.1 call.1.2 call.2) data calls.

End Data.
End Data.

(** ** What the header takes from Boost *)

Module Boost.

(** [bpt::ptime] is compared through its 64-bit count of ticks, so a [ptime]
    is that count.  [bpt::ptime()] is the special value not-a-date-time,
    whose count is the largest [int64_t] but one. *)
Definition not_a_date_time : Z := 9223372036854775806.

(** The fields of [date.date()] read by [getDayOfWeek]. *)
Record date := mk_date { year : Z; month : Z; day : Z }.

(** The two library calls of [fromCSV]:
    - [tokenize row] are the tokens that
      [boost::tokenizer<escaped_list_separator<char>>] yields on [row],
      with backslash as escape, comma as separator and the double quote
      as quote; [None] when it throws [escaped_list_error];
    - [time_get format text date] is the content of [date] after
      [is >> date] on a stream over [text] imbued with
      [time_input_facet(format)]. *)
Class Library := {
  tokenize : string → option (list string);
  time_get : string → string → Z → Z
}.

End Boost.

(** ** [class DataFrame<T>] *)

Module DataFrame.

(** [invalidCharLambda]: the character is outside [32, 127). *)
Definition invalidCharLambda (c : ascii) : bool :=
  let n := Z.of_N (N_of_ascii c) in
  negb ((32 <=? n) && (n <? 127)).

(** [row.erase(std::remove_if(row.begin(), row.end(), invalidCharLambda), row.end())] *)
Fixpoint remove_invalid (row : string) : string :=
  match row with
  | EmptyString => EmptyString
  | String c r => if invalidCharLambda c then remove_invalid r else String c (remove_invalid r)
  end.

(** [s.find_last_of(chars)]: the last position of [s] holding one of [chars],
    [None] for [npos].  [pos] is the position of the head of [s]. *)
Fixpoint find_last_of_from (chars : list ascii) (s : string) (pos : nat) : option nat :=
  match s with
  | EmptyString => None
  | String c r =>
      match find_last_of_from chars r (S pos) with
      | Some p => Some p
      | None => if bool_decide (c ∈ chars) then Some pos else None
      end
  end.
Definition find_last_of (chars : list ascii) (s : string) : option nat :=
  find_last_of_from chars s 0.

Definition slash : ascii := ascii_of_nat 47.
Definition backslash : ascii := ascii_of_nat 92.
Definition dot : ascii := ascii_of_nat 46.

(** [s.substr(pos)] for [pos <= s.size()]. *)
Fixpoint substr_from (pos : nat) (s : string) : string :=
  match pos, s with
  | O, _ => s
  | S p, String _ r => substr_from p r
  | S _, EmptyString => EmptyString
  end.

(** [s.substr(0, len)]; [npos] is [None]. *)
Fixpoint string_take (len : nat) (s : string) : string :=
  match len, s with
  | S n, String c r => String c (string_take n r)
  | _, _ => EmptyString
  end.
Definition substr_to (len : option nat) (s : string) : string :=
  match len with
  | None => s
  | Some n => string_take n s
  end.

(** [getDayOfWeek] on the date part of its argument, in [int] arithmetic:
    [/] truncates and [%] takes the sign of the dividend. *)
Definition t_table : list Z := [0; 3; 2; 5; 0; 3; 5; 1; 4; 6; 2; 4].

Definition getDayOfWeek (date : Boost.date) : Z :=
  let year := Boost.year date in
  let month := Boost.month date in
  let day := Boost.day date in
  let year := year - (if month <? 3 then 1 else 0) in
  Z.rem (year + Z.quot year 4 - Z.quot year 100 + Z.quot year 400
         + nth (Z.to_nat (month - 1)) t_table 0 + day) 7.

Record t (T : Type) := mk {
  formats : list string;
  assetsToFeatures : gmap string (gset string);
  data : list (Z * gmap string (gmap string T))
}.
Arguments mk {T}.
Arguments formats {T}.
Arguments assetsToFeatures {T}.
Arguments data {T}.

(** The file system seen by [std::ifstream]: the lines that successive
    [getline] calls read from the file at a path, [None] when the file cannot
    be opened. *)
Definition filesystem : Type := string → option (list string).

Section DataFrame.
Context {T : Type} {VT : Cxx.ValueType T} {lib : Boost.Library}.

(** The member initialiser of [formats] and the default constructor. *)
Definition default_formats : list string :=
  ["%Y-%m-%d"; "%Y-%m-%d %H:%M"; "%Y-%m-%d %H:%M:%S"]%string.

Definition DataFrame : t T :=
  {| formats := default_formats; assetsToFeatures := ∅; data := [] |}.

Definition size (df : t T) : nat := StdMap.size (data df).
Definition empty (df : t T) : bool := StdMap.empty (data df).

Definition containsAsset (df : t T) (asset : string) : bool :=
  bool_decide (is_Some (assetsToFeatures df !! asset)).

Definition containsDate (df : t T) (date : Z) : bool :=
  bool_decide (is_Some (StdMap.find date (data df))).

Definition getAssetAndFeatures (df : t T) : gmap string (gset string) :=
  assetsToFeatures df.

Definition addDateFormat (df : t T) (format : string) : t T :=
  {| formats := formats df ++ [format];
     assetsToFeatures := assetsToFeatures df;
     data := data df |}.

Definition addDateFormats (df : t T) (format : list string) : t T :=
  fold_left addDateFormat format df.

(** [convert]: [T val; ss >> val; return val;] *)
Definition convert (str : string) : T :=
  Cxx.stream_extract str Cxx.default_init.

(** The loop of [insertData], [n] iterations from index [i] on.
    [features.at(i)] and [rowData.at(i)] raise [std::out_of_range] beyond
    the end of their vector. *)
Fixpoint insertData_from (n i : nat) (dataObj : gmap string (gmap string T))
    (asset : string) (features rowData : list string)
  : gmap string (gmap string T) * Cxx.completion :=
  match n with
  | O => (dataObj, Cxx.Normal)
  | S n' =>
      match features !! i, rowData !! i with
      | Some feature, Some token =>
          insertData_from n' (S i)
            (Data.setData dataObj asset feature (convert token))
            asset features rowData
      | _, _ => (dataObj, Cxx.Throws Cxx.out_of_range)
      end
  end.

Definition insertData (dataObj : gmap string (gmap string T))
    (asset : string) (features rowData : list string)
  : gmap string (gmap string T) * Cxx.completion :=
  Cxx.noexcept (insertData_from (length features) 0 dataObj asset features rowData).

(** The [setData] calls of [insertData] for features paired with tokens. *)
Definition insert_pairs (dataObj : gmap string (gmap string T)) (asset : string)
    (pairs : list (string * string)) : gmap string (gmap string T) :=
  foldl (λ d p, Data.setData d asset p.1 (convert p.2)) dataObj pairs.

(** The loop over [formats] that builds the [ptime] of a row. *)
Fixpoint parse_date (fmts : list string) (dateString : string) (date : Z) : Z :=
  match fmts with
  | [] => date
  | format :: fmts' =>
      let date' := Boost.time_get format dateString date in
      if bool_decide (date' ≠ Boost.not_a_date_time) then date'
      else parse_date fmts' dateString date'
  end.

Definition with_data (df : t T) (d : list (Z * gmap string (gmap string T))) : t T :=
  {| formats := formats df; assetsToFeatures := assetsToFeatures df; data := d |}.

(** One turn of the [while (getline(file, row))] loop.  Reading the first
    token of a row without tokens fails the assertion of the token iterator. *)
Definition ingest_row (df : t T) (asset : string) (features : list string)
    (row : string) : t T * Cxx.completion :=
  match Boost.tokenize (remove_invalid row) with
  | None => (df, Cxx.Throws Cxx.escaped_list_error)
  | Some [] => (df, Cxx.Aborts)
  | Some (dateString :: rowData) =>
      let date := parse_date (formats df) dateString Boost.not_a_date_time in
      let data1 :=
        match StdMap.find date (data df) with
        | None => StdMap.emplace date ∅ (data df)
        | Some _ => data df
        end in
      match StdMap.find date data1 with
      | None => (with_data df data1, Cxx.Throws Cxx.out_of_range)
      | Some dataObj =>
          let '(dataObj', c) := insertData dataObj asset features rowData in
          (with_data df (StdMap.assign date dataObj' data1), c)
      end
  end.

Fixpoint ingest_rows (df : t T) (asset : string) (features : list string)
    (rows : list string) : t T * Cxx.completion :=
  match rows with
  | [] => (df, Cxx.Normal)
  | row :: rows' =>
      match ingest_row df asset features row with
      | (df', Cxx.Normal) => ingest_rows df' asset features rows'
      | stopped => stopped
      end
  end.

(** The row has a first token and a token for each feature. *)
Definition row_fits (features : list string) (row : string) : bool :=
  match Boost.tokenize (remove_invalid row) with
  | Some (_ :: rowData) => bool_decide (length features ≤ length rowData)%nat
  | _ => false
  end.

(** The body of [fromCSV(asset, path)]: the table and the lines written to
    [std::cout] when the body ends, and how it ends. *)
Definition fromCSV_body (fs : filesystem) (df : t T) (asset path : string)
  : (t T * list string) * Cxx.completion :=
  if bool_decide (is_Some (assetsToFeatures df !! asset)) then
    ((df, ["Asset: " +:+ asset +:+ " already exists"]), Cxx.Normal)
  else
    match fs path with
    | None => ((df, ["Error opening file: " +:+ path]), Cxx.Throws Cxx.std_exception)
    | Some lines =>
        match Boost.tokenize (remove_invalid (hd EmptyString lines)) with
        | None => ((df, []), Cxx.Throws Cxx.escaped_list_error)
        | Some [] => ((df, []), Cxx.Aborts)
        | Some (_ :: features) =>
            let df1 :=
              {| formats := formats df;
                 assetsToFeatures := <[asset := list_to_set features]> (assetsToFeatures df);
                 data := data df |} in
            let '(df2, c) := ingest_rows df1 asset features (tl lines) in
            ((df2, []), c)
        end
    end.

Definition fromCSV (fs : filesystem) (df : t T) (asset path : string)
  : (t T * list string) * Cxx.completion :=
  Cxx.noexcept (fromCSV_body fs df asset path).

(** [fromCSV(path)]: the asset is the file name without directory and
    extension.  [npos + 1] is [0]. *)
Definition asset_of_path (path : string) : string :=
  let filename :=
    substr_from (match find_last_of [slash; backslash] path with
                 | Some i => S i
                 | None => O
                 end) path in
  substr_to (find_last_of [dot] filename) filename.

Definition fromCSV_path (fs : filesystem) (df : t T) (path : string)
  : (t T * list string) * Cxx.completion :=
  Cxx.noexcept (fromCSV fs df (asset_of_path path) path).

(** The loop of [removeEmptyDates]: [pending] are the entries from the
    iterator to [end()], [m] is the map. *)
Fixpoint removeEmptyDates_loop (pending m : list (Z * gmap string (gmap string T)))
  : list (Z * gmap string (gmap string T)) :=
  match pending with
  | [] => m
  | (date, dataObj) :: pending' =>
      if Data.empty dataObj
      then removeEmptyDates_loop pending' (StdMap.erase date m)
      else removeEmptyDates_loop pending' m
  end.

Definition removeEmptyDates (df : t T) : t T :=
  with_data df (removeEmptyDates_loop (data df) (data df)).

Definition fillInGaps (df : t T) : t T := df.

(** [DataFrame::getData]: [T t; return t;] when the date is absent. *)
Definition getData (df : t T) (date : Z) (asset feature : string) : T :=
  match StdMap.find date (data df) with
  | Some dataObj => Data.getData dataObj asset feature
  | None => Cxx.default_init
  end.

(** A write to [it->second] through an iterator on the entry of [date]:
    [it->second.setData(...)], or the assignment of another [Data<T>]. *)
Definition write_at (df : t T) (date : Z) (dataObj : gmap string (gmap string T)) : t T :=
  match StdMap.find date (data df) with
  | Some _ => with_data df (StdMap.assign date dataObj (data df))
  | None => df
  end.

Definition setData_at (df : t T) (date : Z) (asset feature : string) (val : T) : t T :=
  match StdMap.find date (data df) with
  | Some dataObj => write_at df date (Data.setData dataObj asset feature val)
  | None => df
  end.

(** The tables a program can build: from the default constructor, by the
    public members that change a table. *)
Inductive reachable : t T → Prop :=
| reach_new : reachable DataFrame
| reach_addDateFormat df format :
    reachable df → reachable (addDateFormat df format)
| reach_fromCSV fs df asset path df' out :
    reachable df →
    fromCSV fs df asset path = ((df', out), Cxx.Normal) →
    reachable df'
| reach_fromCSV_path fs df path df' out :
    reachable df →
    fromCSV_path fs df path = ((df', out), Cxx.Normal) →
    reachable df'
| reach_removeEmptyDates df :
    reachable df → reachable (removeEmptyDates df)
| reach_write df date dataObj :
    reachable df → reachable (write_at df date dataObj).

(** The entry of a date, an asset and a feature, if the table has one. *)
Definition entry_at (df : t T) (date : Z) (asset feature : string) : option T :=
  StdMap.find date (data df) ≫= λ dataObj, Data.entry dataObj asset feature.

(** The [ptime] that [fromCSV] builds for a row, when the row has a first
    token. *)
Definition row_date (df : t T) (row : string) : option Z :=
  match Boost.tokenize (remove_invalid row) with
  | Some (dateString :: _) =>
      Some (parse_date (formats df) dateString Boost.not_a_date_time)
  | _ => None
  end.

(** The value tokens of a row. *)
Definition row_values (row : string) : list string :=
  match Boost.tokenize (remove_invalid row) with
  | Some (_ :: rowData) => rowData
  | _ => []
  end.


End DataFrame.
End DataFrame.

(** ** The calendar, to compare [getDayOfWeek] with

  Days are counted one by one from 0001-01-01 of the proleptic Gregorian
  calendar, a Monday. *)

Module Calendar.

Definition is_leap_year (y : Z) : bool :=
  ((y mod 4 =? 0) && negb (y mod 100 =? 0)) || (y mod 400 =? 0).

Definition days_in_year (y : Z) : Z := if is_leap_year y then 366 else 365.

Definition days_in_month (y m : Z) : Z :=
  if m =? 2 then (if is_leap_year y then 29 else 28)
  else if (m =? 4) || (m =? 6) || (m =? 9) || (m =? 11) then 30
  else 31.

(** The days of the years [1 .. n]. *)
Fixpoint days_of_years (n : nat) : Z :=
  match n with
  | O => 0
  | S n' => days_of_years n' + days_in_year (Z.of_nat n)
  end.

(** The days of the months [1 .. n] of year [y]. *)
Fixpoint days_of_months (y : Z) (n : nat) : Z :=
  match n with
  | O => 0
  | S n' => days_of_months y n' + days_in_month y (Z.of_nat n)
  end.

(** The days from 0001-01-01 to the date. *)
Definition day_number (d : Boost.date) : Z :=
  days_of_years (Z.to_nat (Boost.year d - 1))
  + days_of_months (Boost.year d) (Z.to_nat (Boost.month d - 1))
  + (Boost.day d - 1).

(** [0] is Sunday, [6] is Saturday. *)
Definition weekday (d : Boost.date) : Z := (1 + day_number d) mod 7.

(** The dates of [boost::gregorian::date]: years 1400 to 9999. *)
Definition valid (d : Boost.date) : Prop :=
  1400 <= Boost.year d <= 9999 ∧ 1 <= Boost.month d <= 12 ∧
  1 <= Boost.day d <= days_in_month (Boost.year d) (Boost.month d).

(** The day after a date. *)
Definition next_day (d : Boost.date) : Boost.date :=
  if Boost.day d <? days_in_month (Boost.year d) (Boost.month d)
  then Boost.mk_date (Boost.year d) (Boost.month d) (Boost.day d + 1)
  else if Boost.month d <? 12
  then Boost.mk_date (Boost.year d) (Boost.month d + 1) 1
  else Boost.mk_date (Boost.year d + 1) 1 1.

End Calendar.

(** ** Concrete instances, for running the embedding *)

Module Examples.

Definition comma : ascii := ascii_of_nat 44.
Definition dash : ascii := ascii_of_nat 45.
Definition quote : ascii := ascii_of_nat 34.
Definition letter_n : ascii := ascii_of_nat 110.
Definition newline : ascii := ascii_of_nat 10.

(** [escaped_list_separator]: a backslash escapes [n], the quote, the
    comma and itself, and throws before any other character and at the end
    of the row; a comma outside quotes ends a token; quotes are dropped.
    [tok] is the token being read, last character first. *)
Fixpoint escaped_list (s : list ascii) (tok : list ascii) (bInQuote : bool)
  : option (list string) :=
  match s with
  | [] => Some [string_of_list_ascii (rev tok)]
  | c :: r =>
      if bool_decide (c = DataFrame.backslash) then
        match r with
        | [] => None
        | e :: r' =>
            if bool_decide (e = letter_n) then escaped_list r' (newline :: tok) bInQuote
            else if bool_decide (e = quote) || bool_decide (e = comma)
                    || bool_decide (e = DataFrame.backslash)
            then escaped_list r' (e :: tok) bInQuote
            else None
        end
      else if bool_decide (c = comma) then
        if bInQuote then escaped_list r (c :: tok) bInQuote
        else cons (string_of_list_ascii (rev tok)) <$> escaped_list r [] false
      else if bool_decide (c = quote) then escaped_list r tok (negb bInQuote)
      else escaped_list r (c :: tok) bInQuote
  end.

(** The tokens of a row; the empty row has none. *)
Definition escaped_list_tokenize (row : string) : option (list string) :=
  match row with
  | EmptyString => Some []
  | _ => escaped_list (list_ascii_of_string row) [] false
  end.

Definition number (cs : list ascii) : option Z :=
  foldl (λ acc c, a ← acc; d ← Cxx.digit_of c; Some (10 * a + d)) (Some 0) cs.

Definition ticks_per_day : Z := 86400000000.

(** [gregorian_calendar::day_number]: the Julian day number of a date. *)
Definition day_number (ymd : Boost.date) : Z :=
  let a := (14 - Boost.month ymd) / 12 in
  let y := Boost.year ymd + 4800 - a in
  let m := Boost.month ymd + 12 * a - 3 in
  Boost.day ymd + (153 * m + 2) / 5 + 365 * y + y / 4 - y / 100 + y / 400 - 32045.

(** The count of a date at midnight, in microseconds. *)
Definition ticks_of (d : Boost.date) : Z := day_number d * ticks_per_day.

(** A time input facet that knows the pattern [%Y-%m-%d] only, on texts
    that start with [YYYY-MM-DD]; any other extraction fails and leaves the
    date as it was. *)
Definition iso_time_get (format text : string) (date : Z) : Z :=
  if bool_decide (format = "%Y-%m-%d"%string) then
    match list_ascii_of_string text with
    | y1 :: y2 :: y3 :: y4 :: s1 :: m1 :: m2 :: s2 :: d1 :: d2 :: _ =>
        match number [y1; y2; y3; y4], number [m1; m2], number [d1; d2] with
        | Some y, Some m, Some d =>
            let dt := Boost.mk_date y m d in
            if bool_decide (s1 = dash) && bool_decide (s2 = dash)
               && (1400 <=? y) && (1 <=? m) && (m <=? 12)
               && (1 <=? d) && (d <=? Calendar.days_in_month y m)
            then ticks_of dt else date
        | _, _, _ => date
        end
    | _ => date
    end
  else date.

Definition simple_library : Boost.Library :=
  {| Boost.tokenize := escaped_list_tokenize; Boost.time_get := iso_time_get |}.

(** A file system with five files:
    [out_of_order.csv] lists its dates out of order, has a row with a spare
    value and two rows whose date is not a date;
    [dates_only.csv] and [one_date.csv] have a header without features;
    [short_row.csv] has a row with one value for two features;
    [one_value.csv] has one date and one value. *)
Definition disk : DataFrame.filesystem := λ path,
  if bool_decide (path = "data/out_of_order.csv"%string) then
    Some ["Date,Open,Close"; "2020-01-03,12,13"; "2020-01-01,10,11,99";
          "2020-01-02,11,12"; "tomorrow,7,8"; "yesterday,5,6"]%string
  else if bool_decide (path = "dates_only.csv"%string) then
    Some ["Date"; "2020-01-05"; "2020-01-04"]%string
  else if bool_decide (path = "short_row.csv"%string) then
    Some ["Date,Open,Close"; "2020-01-03,12"]%string
  else if bool_decide (path = "one_date.csv"%string) then
    Some ["Date"; "2020-01-04"]%string
  else if bool_decide (path = "one_value.csv"%string) then
    Some ["Date,Open"; "2020-01-05,3"]%string
  else None.


Definition ts (y m d : Z) : Z := ticks_of (Boost.mk_date y m d).

(** The table after [fromCSV("A", "data/out_of_order.csv")], and after
    [fromCSV("dates_only.csv")] on top of it. *)
Definition loaded : DataFrame.t (Cxx.scalar Z) :=
  (DataFrame.fromCSV (lib := simple_library) disk DataFrame.DataFrame
     "A" "data/out_of_order.csv").1.1.

Definition loaded_twice : DataFrame.t (Cxx.scalar Z) :=
  (DataFrame.fromCSV_path (lib := simple_library) disk loaded "dates_only.csv").1.1.

(** A table of two dates, the first one with an empty Row Store. *)
Definition two_dates : DataFrame.t (Cxx.scalar Z) :=
  (DataFrame.fromCSV_path (lib := simple_library) disk
     (DataFrame.fromCSV_path (lib := simple_library) disk DataFrame.DataFrame
        "one_value.csv").1.1
     "one_date.csv").1.1.

(** The files of [disk] with a carriage return at the end of each line. *)
Definition carriage_return : ascii := ascii_of_nat 13.



Definition a_then_b : DataFrame.t (Cxx.scalar Z) :=
  (DataFrame.fromCSV (lib := simple_library) disk loaded "B" "one_value.csv").1.1.


End Examples.

(* ===================================================================== *)
(** * Part II: properties                                                 *)
(* ===================================================================== *)

(** ** The Row Store *)

Section DataFacts.
Context {T : Type} `{!Cxx.ValueType T}.
Implicit Types (data : gmap string (gmap string T)) (asset feature : string).

Import Data.

Lemma entry_empty asset feature : entry (T:=T) ∅ asset feature = None.
Proof. unfold entry. by rewrite lookup_empty. Qed.

Lemma getData_entry data asset feature :
  Data.getData data asset feature = default Cxx.value_init (entry data asset feature).
Proof.
  unfold getData, empty, entry.
  case_bool_decide as Hemp; simpl.
  - subst. by rewrite lookup_empty.
  - destruct (data !! asset) as [m|]; simpl; [|done].
    by destruct (m !! feature).
Qed.

Lemma entry_setData data asset feature val a f :
  entry (Data.setData data asset feature val) a f =
    if decide (a = asset ∧ f = feature)
    then Some (default val (entry data asset feature))
    else entry data a f.
Proof.
  unfold setData, entry.
  destruct (data !! asset) as [m|] eqn:Ha; simpl.
  - destruct (m !! feature) as [v|] eqn:Hf; simpl.
    + case_decide as Heq; [|done].
      destruct Heq as [-> ->]. by rewrite Ha; simpl.
    + destruct (decide (a = asset)) as [->|Hne].
      * rewrite lookup_insert_eq; simpl.
        destruct (decide (f = feature)) as [->|Hnf].
        -- rewrite lookup_insert_eq. by rewrite decide_True.
        -- rewrite lookup_insert_ne by done.
           rewrite decide_False by (by intros [? ?]). by rewrite Ha.
      * rewrite lookup_insert_ne by done.
        by rewrite decide_False by (by intros [? ?]).
  - destruct (decide (a = asset)) as [->|Hne].
    + rewrite lookup_insert_eq; simpl.
      destruct (decide (f = feature)) as [->|Hnf].
      * rewrite lookup_singleton_eq. by rewrite decide_True.
      * rewrite lookup_singleton_ne by done.
        rewrite decide_False by (by intros [? ?]). by rewrite Ha.
    + rewrite lookup_insert_ne by done.
      by rewrite decide_False by (by intros [? ?]).
Qed.

Lemma setData_present data asset feature v val :
  entry data asset feature = Some v →
  Data.setData data asset feature val = data.
Proof.
  unfold entry, setData. intros Hv.
  destruct (data !! asset) as [m|]; simpl in Hv; [|done].
  by rewrite Hv.
Qed.

Lemma entry_setData_kept data asset feature val a f v :
  entry data a f = Some v →
  entry (Data.setData data asset feature val) a f = Some v.
Proof.
  intros Hv. rewrite entry_setData. case_decide as Heq; [|done].
  destruct Heq as [-> ->]. by rewrite Hv.
Qed.

Lemma entry_setData_all_kept calls : ∀ data a f v,
  entry data a f = Some v → entry (setData_all data calls) a f = Some v.
Proof.
  induction calls as [|[[a' f'] v'] calls IH]; intros data a f v Hv; [done|].
  simpl. apply IH. by apply entry_setData_kept.
Qed.

Lemma setData_not_empty data asset feature val :
  Data.setData data asset feature val ≠ ∅.
Proof.
  intros Hemp.
  assert (entry (Data.setData data asset feature val) asset feature = None) as Habs
    by (rewrite Hemp; apply entry_empty).
  rewrite entry_setData, decide_True in Habs; done.
Qed.

(** C1.  When a store has no entry for (A, F), [setData(A, F, V)] makes
    [getData(A, F)] return [V]; a second [setData(A, F, V2)] leaves the store
    as it is, so [getData(A, F)] is still [V]; and whatever entry a store has
    for (A, F), no sequence of later [setData] calls changes it. *)
Theorem setData_first_write_wins data A F V :
  entry data A F = None →
  Data.getData (Data.setData data A F V) A F = V
  ∧ (∀ V2, Data.setData (Data.setData data A F V) A F V2 = Data.setData data A F V)
  ∧ (∀ V2, V2 ≠ V → Data.getData (Data.setData (Data.setData data A F V) A F V2) A F = V)
  ∧ (∀ calls, Data.getData (setData_all (Data.setData data A F V) calls) A F = V)
  ∧ (∀ d v calls, entry d A F = Some v →
       entry (setData_all d calls) A F = Some v
       ∧ Data.getData (setData_all d calls) A F = Data.getData d A F).
Proof.
  intros Habsent.
  assert (entry (Data.setData data A F V) A F = Some V) as Hset.
  { rewrite entry_setData, decide_True by done. by rewrite Habsent. }
  split_and!.
  - by rewrite getData_entry, Hset.
  - intros V2. by eapply setData_present.
  - intros V2 _. erewrite setData_present by done. by rewrite getData_entry, Hset.
  - intros calls. rewrite getData_entry.
    by rewrite (entry_setData_all_kept calls _ _ _ V Hset).
  - intros d v calls Hv. split; [by apply entry_setData_all_kept|].
    rewrite !getData_entry. by rewrite (entry_setData_all_kept calls _ _ _ v Hv), Hv.
Qed.

End DataFacts.

(** ** The ordered map *)

Section StdMapFacts.
Context {V : Type}.
Implicit Types (m : list (Z * V)) (k : Z) (v : V).
Import StdMap.

Ltac key_cases k k' :=
  destruct (Z.eqb_spec k k') as [?|?]; subst; simpl; try done; try lia.

Lemma find_is_Some k m : is_Some (find k m) ↔ k ∈ forward m.
Proof.
  unfold forward. induction m as [|[k' v'] m IH]; simpl.
  - rewrite elem_of_nil. split; [by intros [? ?]|done].
  - rewrite elem_of_cons. key_cases k k'.
    + split; [by left | by eexists].
    + rewrite IH. split; [by right | by intros [?|?]].
Qed.

Lemma find_None k m : find k m = None ↔ k ∉ forward m.
Proof. rewrite <-find_is_Some, eq_None_not_Some. done. Qed.

Lemma find_emplace k v m k' :
  find k m = None →
  find k' (emplace k v m) = if decide (k' = k) then Some v else find k' m.
Proof.
  induction m as [|[k0 v0] m IH]; simpl; intros Hk.
  - key_cases k' k; [by rewrite decide_True | by rewrite decide_False].
  - destruct (Z.eqb_spec k k0) as [->|Hne]; [done|].
    destruct (Z.ltb_spec k k0) as [Hlt|Hge]; simpl.
    + key_cases k' k; [by rewrite decide_True | by rewrite decide_False].
    + key_cases k' k0.
      * by rewrite decide_False.
      * by apply IH.
Qed.

Lemma forward_emplace k v m k' :
  k' ∈ forward (emplace k v m) ↔ k' = k ∨ k' ∈ forward m.
Proof.
  unfold forward. induction m as [|[k0 v0] m IH]; simpl.
  - by rewrite elem_of_cons.
  - destruct (Z.ltb_spec k k0) as [Hlt|Hge]; simpl.
    + by rewrite elem_of_cons.
    + destruct (Z.eqb_spec k k0) as [->|Hne]; simpl.
      * rewrite !elem_of_cons. naive_solver.
      * rewrite !elem_of_cons, IH. naive_solver.
Qed.

Lemma ordered_emplace k v m : ordered m → ordered (emplace k v m).
Proof.
  unfold ordered. induction m as [|[k0 v0] m IH]; simpl; intros Hm.
  - repeat constructor.
  - apply StronglySorted_cons in Hm as [Hall Hm].
    destruct (Z.ltb_spec k k0) as [Hlt|Hge]; simpl.
    + apply StronglySorted_cons. split; [|by apply StronglySorted_cons].
      constructor; [done|].
      eapply Forall_impl; [exact Hall|]. simpl. lia.
    + destruct (Z.eqb_spec k k0) as [->|Hne]; simpl.
      * by apply StronglySorted_cons.
      * apply StronglySorted_cons. split; [|by apply IH].
        apply Forall_forall. intros k' Hk'.
        apply forward_emplace in Hk' as [->|Hk']; [lia|].
        rewrite Forall_forall in Hall. by apply Hall.
Qed.

Lemma forward_assign k v m : forward (assign k v m) = forward m.
Proof.
  unfold forward. induction m as [|[k0 v0] m IH]; simpl; [done|].
  key_cases k k0. f_equal. exact IH.
Qed.

Lemma ordered_assign k v m : ordered m → ordered (assign k v m).
Proof. unfold ordered. by rewrite forward_assign. Qed.

Lemma find_assign k v m k' :
  find k' (assign k v m) = if decide (k' = k) then (λ _, v) <$> find k m else find k' m.
Proof.
  induction m as [|[k0 v0] m IH]; simpl.
  - by case_decide.
  - destruct (Z.eqb_spec k k0) as [->|Hne]; simpl.
    + destruct (Z.eqb_spec k' k0) as [->|Hne']; case_decide; by simplify_eq.
    + destruct (Z.eqb_spec k' k0) as [->|Hne']; [|exact IH].
      case_decide; by simplify_eq.
Qed.

Lemma forward_erase k m k' : k' ∈ forward (erase k m) → k' ∈ forward m.
Proof.
  unfold forward. induction m as [|[k0 v0] m IH]; simpl; [done|].
  rewrite elem_of_cons. key_cases k k0; [by right|].
  rewrite elem_of_cons. naive_solver.
Qed.

Lemma ordered_erase k m : ordered m → ordered (erase k m).
Proof.
  unfold ordered. induction m as [|[k0 v0] m IH]; simpl; intros Hm; [done|].
  apply StronglySorted_cons in Hm as [Hall Hm].
  key_cases k k0. apply StronglySorted_cons. split; [|by apply IH].
  rewrite Forall_forall in Hall. apply Forall_forall.
  intros k' Hk'. by apply Hall, (forward_erase k).
Qed.

Lemma erase_middle k v l1 l2 :
  k ∉ forward l1 → erase k (l1 ++ ((k, v) :: l2)) = l1 ++ l2.
Proof.
  unfold forward. induction l1 as [|[k0 v0] l1 IH]; simpl.
  - intros _. by rewrite Z.eqb_refl.
  - rewrite not_elem_of_cons. intros [Hne Hnin].
    key_cases k k0. by rewrite IH.
Qed.

Lemma ordered_app_notin l1 k v l2 :
  ordered (l1 ++ ((k, v) :: l2)) → (k ∉ forward l1) ∧ (k ∉ forward l2).
Proof.
  unfold ordered, forward. rewrite fmap_app, fmap_cons. simpl.
  intros Hs. apply StronglySorted_app in Hs as (Hlt & _ & Hs2).
  apply StronglySorted_cons in Hs2 as [Hall _].
  split.
  - intros Hin. specialize (Hlt k k Hin). ospecialize* Hlt; [by left|lia].
  - intros Hin. rewrite Forall_forall in Hall. specialize (Hall k Hin). lia.
Qed.

Lemma ordered_filter (P : Z * V → Prop) `{!∀ e, Decision (P e)} m :
  ordered m → ordered (filter P m).
Proof.
  unfold ordered, forward. induction m as [|e m IH]; simpl; intros Hm; [done|].
  apply StronglySorted_cons in Hm as [Hall Hm].
  rewrite filter_cons. case_decide; [|by apply IH].
  rewrite fmap_cons. apply StronglySorted_cons. split; [|by apply IH].
  rewrite Forall_forall in Hall. apply Forall_forall.
  intros k' Hk'. apply Hall.
  apply list_elem_of_fmap in Hk' as (e' & -> & He').
  apply list_elem_of_fmap_2. by apply list_elem_of_filter in He' as [_ ?].
Qed.

Lemma find_filter (P : Z * V → Prop) `{!∀ e, Decision (P e)} m k :
  ordered m →
  find k (filter P m) = find k m ≫= (λ v, if decide (P (k, v)) then Some v else None).
Proof.
  induction m as [|[k0 v0] m IH]; simpl; intros Hm; [done|].
  pose proof (ordered_app_notin [] k0 v0 m Hm) as [_ Hnin].
  unfold ordered, forward in Hm. simpl in Hm.
  apply StronglySorted_cons in Hm as [_ Hm].
  rewrite filter_cons.
  destruct (Z.eqb_spec k k0) as [->|Hne]; simpl.
  - case_decide; simpl.
    + by rewrite Z.eqb_refl.
    + rewrite IH by done. apply find_None in Hnin. by rewrite Hnin.
  - case_decide; simpl; [|by apply IH].
    destruct (Z.eqb_spec k k0) as [?|_]; [done|]. by apply IH.
Qed.

Lemma backward_forward m : backward m = reverse (forward m).
Proof. unfold backward, forward. apply fmap_reverse. Qed.

Lemma StronglySorted_reverse_gt (l : list Z) :
  StronglySorted Z.lt l → StronglySorted Z.gt (reverse l).
Proof.
  induction l as [|x l IH]; intros Hl; [constructor|].
  apply StronglySorted_cons in Hl as [Hall Hl].
  rewrite reverse_cons. apply StronglySorted_app_2.
  - intros x1 x2 Hx1 ->%list_elem_of_singleton.
    rewrite Forall_forall in Hall.
    rewrite elem_of_reverse in Hx1. specialize (Hall _ Hx1). lia.
  - by apply IH.
  - repeat constructor.
Qed.

Lemma ordered_NoDup m : ordered m → NoDup (forward m).
Proof.
  unfold ordered. generalize (forward m). intros l.
  induction l as [|x l IH]; intros Hl; [constructor|].
  apply StronglySorted_cons in Hl as [Hall Hl].
  constructor; [|by apply IH].
  intros Hin. rewrite Forall_forall in Hall. specialize (Hall _ Hin). lia.
Qed.

Lemma ordered_foldl_emplace ks v : ∀ m,
  ordered m → ordered (foldl (λ m k, emplace k v m) m ks).
Proof.
  induction ks as [|k ks IH]; intros m Hm; simpl; [done|].
  by apply IH, ordered_emplace.
Qed.

Lemma forward_foldl_emplace ks v : ∀ m k',
  k' ∈ forward (foldl (λ m k, emplace k v m) m ks) ↔ k' ∈ ks ∨ k' ∈ forward m.
Proof.
  induction ks as [|k ks IH]; intros m k'; simpl.
  - rewrite elem_of_nil. naive_solver.
  - rewrite IH, forward_emplace, elem_of_cons. naive_solver.
Qed.

Lemma ordered_unique m1 m2 :
  ordered m1 → ordered m2 →
  (∀ k, k ∈ forward m1 ↔ k ∈ forward m2) → forward m1 = forward m2.
Proof.
  intros H1 H2 Hsame.
  apply (StronglySorted_unique_strong Z.lt); [intros; lia|done..|].
  apply NoDup_Permutation; [by apply ordered_NoDup..|done].
Qed.

End StdMapFacts.

(** ** The Table *)

Section DataFrameFacts.
Context {T : Type} {VT : Cxx.ValueType T} {lib : Boost.Library}.
Implicit Types (df : DataFrame.t T) (dataObj : gmap string (gmap string T)).
Implicit Types (asset feature row dateString : string) (features rowData : list string).
Import DataFrame.

(** The entries that [removeEmptyDates] keeps. *)
Local Abbreviation has_data :=
  (λ e : Z * gmap string (gmap string T), Data.empty e.2 = false).

(** *** [insertData] *)

Lemma insertData_from_spec n : ∀ i dataObj asset features rowData,
  (i + n = length features)%nat →
  (i ≤ length rowData)%nat →
  insertData_from n i dataObj asset features rowData =
    (insert_pairs dataObj asset (zip (drop i features) (drop i rowData)),
     if decide (length features ≤ length rowData)%nat
     then Cxx.Normal else Cxx.Throws Cxx.out_of_range).
Proof.
  induction n as [|n IH]; intros i dataObj asset features rowData Hn Hi; simpl.
  - rewrite (drop_ge features) by lia. simpl.
    by rewrite decide_True by lia.
  - destruct (lookup_lt_is_Some_2 features i) as [feature Hf]; [lia|].
    rewrite Hf. destruct (rowData !! i) as [token|] eqn:Ht.
    + apply lookup_lt_Some in Ht as Hlt.
      rewrite IH by lia.
      by rewrite (drop_S features feature i), (drop_S rowData token i).
    + apply lookup_ge_None in Ht.
      rewrite (drop_ge rowData) by lia. rewrite zip_with_nil_r. simpl.
      by rewrite decide_False by lia.
Qed.

Lemma insertData_enough dataObj asset features rowData :
  (length features ≤ length rowData)%nat →
  insertData dataObj asset features rowData =
    (insert_pairs dataObj asset (zip features rowData), Cxx.Normal).
Proof.
  intros Hlen. unfold insertData.
  rewrite insertData_from_spec by lia.
  by rewrite !drop_0, decide_True.
Qed.

Lemma insertData_short dataObj asset features rowData :
  (length rowData < length features)%nat →
  insertData_from (length features) 0 dataObj asset features rowData =
    (insert_pairs dataObj asset (zip features rowData), Cxx.Throws Cxx.out_of_range)
  ∧ insertData dataObj asset features rowData =
    (insert_pairs dataObj asset (zip features rowData), Cxx.Aborts).
Proof.
  intros Hlen. unfold insertData.
  rewrite insertData_from_spec by lia.
  by rewrite !drop_0, decide_False by lia.
Qed.

Lemma insertData_completion dataObj asset features rowData :
  (insertData dataObj asset features rowData).2 =
    if decide (length features ≤ length rowData)%nat then Cxx.Normal else Cxx.Aborts.
Proof.
  case_decide.
  - by rewrite insertData_enough.
  - destruct (insertData_short dataObj asset features rowData) as [_ ->]; [lia|done].
Qed.

Lemma entry_insert_pairs_kept pairs : ∀ dataObj asset a f v,
  Data.entry dataObj a f = Some v →
  Data.entry (insert_pairs dataObj asset pairs) a f = Some v.
Proof.
  induction pairs as [|[feature token] pairs IH]; intros dataObj asset a f v Hv; [done|].
  simpl. apply IH. by apply entry_setData_kept.
Qed.

(** The feature at index [i] receives the token at index [i], unless the
    pair had an entry or the name stands earlier in the header. *)
Lemma insert_pairs_index features : ∀ rowData dataObj asset i feature token,
  features !! i = Some feature →
  rowData !! i = Some token →
  Data.entry dataObj asset feature = None →
  (∀ j, (j < i)%nat → features !! j ≠ Some feature) →
  Data.entry (insert_pairs dataObj asset (zip features rowData)) asset feature
    = Some (convert token).
Proof.
  induction features as [|f0 features IH];
    intros rowData dataObj asset i feature token Hf Ht Hnone Hfirst; [done|].
  destruct rowData as [|t0 rowData]; [done|].
  destruct i as [|i]; simpl in *.
  - simplify_eq. apply entry_insert_pairs_kept.
    rewrite entry_setData, decide_True by done. by rewrite Hnone.
  - apply (IH rowData _ asset i feature token); [done..| |].
    + rewrite entry_setData, decide_False; [done|].
      intros [_ ->]. by apply (Hfirst 0%nat); [lia|].
    + intros j Hj. apply (Hfirst (S j)). lia.
Qed.

(** *** One row *)

Lemma ingest_row_tokens df asset features row dateString rowData :
  Boost.tokenize (remove_invalid row) = Some (dateString :: rowData) →
  let date := parse_date (formats df) dateString Boost.not_a_date_time in
  let r := insertData (default ∅ (StdMap.find date (data df))) asset features rowData in
  ingest_row df asset features row =
    (with_data df
       (StdMap.assign date r.1
          (match StdMap.find date (data df) with
           | None => StdMap.emplace date ∅ (data df)
           | Some _ => data df
           end)), r.2).
Proof.
  intros Htok. unfold ingest_row. rewrite Htok. simpl.
  destruct (StdMap.find _ (data df)) as [d|] eqn:Hfind; simpl.
  - rewrite Hfind. by destruct (insertData _ _ _ _).
  - rewrite find_emplace, decide_True by done. by destruct (insertData _ _ _ _).
Qed.

Lemma ingest_row_completion df asset features row :
  (ingest_row df asset features row).2 =
    match Boost.tokenize (remove_invalid row) with
    | None => Cxx.Throws Cxx.escaped_list_error
    | Some [] => Cxx.Aborts
    | Some (_ :: rowData) =>
        if decide (length features ≤ length rowData)%nat then Cxx.Normal else Cxx.Aborts
    end.
Proof.
  destruct (Boost.tokenize (remove_invalid row)) as [[|dateString rowData]|] eqn:Htok.
  - unfold ingest_row. by rewrite Htok.
  - rewrite (ingest_row_tokens _ _ _ _ _ _ Htok). simpl.
    apply insertData_completion.
  - unfold ingest_row. by rewrite Htok.
Qed.

Lemma ingest_row_index df asset features row :
  formats (ingest_row df asset features row).1 = formats df
  ∧ assetsToFeatures (ingest_row df asset features row).1 = assetsToFeatures df.
Proof.
  destruct (Boost.tokenize (remove_invalid row)) as [[|dateString rowData]|] eqn:Htok.
  - unfold ingest_row. by rewrite Htok.
  - by rewrite (ingest_row_tokens _ _ _ _ _ _ Htok).
  - unfold ingest_row. by rewrite Htok.
Qed.

Lemma ingest_row_ordered df asset features row :
  StdMap.ordered (data df) →
  StdMap.ordered (data (ingest_row df asset features row).1).
Proof.
  intros Hord.
  destruct (Boost.tokenize (remove_invalid row)) as [[|dateString rowData]|] eqn:Htok.
  - unfold ingest_row. by rewrite Htok.
  - rewrite (ingest_row_tokens _ _ _ _ _ _ Htok). simpl.
    apply ordered_assign. destruct (StdMap.find _ _); [done|].
    by apply ordered_emplace.
  - unfold ingest_row. by rewrite Htok.
Qed.

(** The entries after a row that has a token for each feature. *)
Lemma ingest_row_find df asset features row dateString rowData :
  Boost.tokenize (remove_invalid row) = Some (dateString :: rowData) →
  (length features ≤ length rowData)%nat →
  let date := parse_date (formats df) dateString Boost.not_a_date_time in
  (ingest_row df asset features row).2 = Cxx.Normal
  ∧ ∀ k, StdMap.find k (data (ingest_row df asset features row).1) =
      if decide (k = date)
      then Some (insert_pairs (default ∅ (StdMap.find date (data df)))
                   asset (zip features rowData))
      else StdMap.find k (data df).
Proof.
  intros Htok Hlen date.
  rewrite (ingest_row_tokens _ _ _ _ _ _ Htok). simpl. fold date.
  rewrite insertData_enough by done. simpl. split; [done|].
  intros k. rewrite find_assign.
  destruct (StdMap.find date (data df)) as [d|] eqn:Hfind; simpl.
  - case_decide; [rewrite Hfind|]; reflexivity.
  - rewrite !find_emplace by done.
    repeat case_decide; try done; by simplify_eq.
Qed.

(** *** The rows of a file *)

Lemma ingest_row_fits df asset features row :
  (ingest_row df asset features row).2 = Cxx.Normal ↔ row_fits features row = true.
Proof.
  rewrite ingest_row_completion. unfold row_fits.
  destruct (Boost.tokenize _) as [[|dateString rowData]|]; [done| |done].
  case_decide; [by rewrite bool_decide_true | by rewrite bool_decide_false].
Qed.

Lemma ingest_rows_completion rows : ∀ df asset features,
  (ingest_rows df asset features rows).2 = Cxx.Normal
  ↔ forallb (row_fits features) rows = true.
Proof.
  induction rows as [|row rows IH]; intros df asset features; simpl; [done|].
  pose proof (ingest_row_fits df asset features row) as Hrow.
  destruct (ingest_row df asset features row) as [df' c]. simpl in Hrow.
  rewrite andb_true_iff, <-Hrow.
  destruct c; simpl; [rewrite IH; tauto | split; [done | by intros [? _]]..].
Qed.

Lemma ingest_rows_index rows : ∀ df asset features,
  formats (ingest_rows df asset features rows).1 = formats df
  ∧ assetsToFeatures (ingest_rows df asset features rows).1 = assetsToFeatures df.
Proof.
  induction rows as [|row rows IH]; intros df asset features; simpl; [done|].
  pose proof (ingest_row_index df asset features row) as [Hf Ha].
  destruct (ingest_row df asset features row) as [df' c]. simpl in Hf, Ha.
  destruct c; simpl; try done.
  destruct (IH df' asset features) as [Hf' Ha']. split; congruence.
Qed.

Lemma ingest_rows_ordered rows : ∀ df asset features,
  StdMap.ordered (data df) →
  StdMap.ordered (data (ingest_rows df asset features rows).1).
Proof.
  induction rows as [|row rows IH]; intros df asset features Hord; simpl; [done|].
  pose proof (ingest_row_ordered df asset features row Hord) as Hrow.
  destruct (ingest_row df asset features row) as [df' c]. simpl in Hrow.
  destruct c; simpl; try done. by apply IH.
Qed.

(** *** [fromCSV] *)

Lemma fromCSV_registered fs df asset path :
  is_Some (assetsToFeatures df !! asset) →
  fromCSV fs df asset path =
    ((df, ["Asset: " +:+ asset +:+ " already exists"]), Cxx.Normal).
Proof.
  intros Hin. unfold fromCSV, fromCSV_body. by rewrite bool_decide_true.
Qed.

Lemma fromCSV_unopened fs df asset path :
  assetsToFeatures df !! asset = None →
  fs path = None →
  fromCSV_body fs df asset path =
    ((df, ["Error opening file: " +:+ path]), Cxx.Throws Cxx.std_exception)
  ∧ fromCSV fs df asset path = ((df, ["Error opening file: " +:+ path]), Cxx.Aborts).
Proof.
  intros Hout Hfs. unfold fromCSV, fromCSV_body.
  rewrite bool_decide_false by (rewrite Hout; by intros [? ?]).
  by rewrite Hfs.
Qed.

(** A file that opens: the header registers the asset, the rows follow. *)
Lemma fromCSV_opened fs df asset path lines corner features :
  assetsToFeatures df !! asset = None →
  fs path = Some lines →
  Boost.tokenize (remove_invalid (hd EmptyString lines)) = Some (corner :: features) →
  let df1 := {| formats := formats df;
                assetsToFeatures := <[asset := list_to_set features]> (assetsToFeatures df);
                data := data df |} in
  let r := ingest_rows df1 asset features (tl lines) in
  fromCSV fs df asset path = ((r.1, []), (Cxx.noexcept r).2).
Proof.
  intros Hout Hfs Htok. unfold fromCSV, fromCSV_body.
  rewrite bool_decide_false by (rewrite Hout; by intros [? ?]).
  rewrite Hfs, Htok. simpl.
  destruct (ingest_rows _ _ _ _) as [df2 c]. by destruct c.
Qed.

Lemma fromCSV_completion fs df asset path :
  (fromCSV fs df asset path).2 = Cxx.Normal ∨ (fromCSV fs df asset path).2 = Cxx.Aborts.
Proof.
  unfold fromCSV, fromCSV_body. case_bool_decide; [by left|].
  destruct (fs path) as [lines|]; [|by right].
  destruct (Boost.tokenize _) as [[|corner features]|]; [by right| |by right].
  destruct (ingest_rows _ _ _ _) as [df2 c]. destruct c; auto.
Qed.

Lemma fromCSV_Normal fs df asset path df' out :
  fromCSV fs df asset path = ((df', out), Cxx.Normal) →
  formats df' = formats df
  ∧ is_Some (assetsToFeatures df' !! asset)
  ∧ (StdMap.ordered (data df) → StdMap.ordered (data df')).
Proof.
  destruct (assetsToFeatures df !! asset) as [fset|] eqn:Hasset.
  { rewrite fromCSV_registered by (by rewrite Hasset).
    intros [= <- _]. by rewrite Hasset. }
  destruct (fs path) as [lines|] eqn:Hfs.
  2: { destruct (fromCSV_unopened fs df asset path Hasset Hfs) as [_ ->]. done. }
  destruct (Boost.tokenize (remove_invalid (hd EmptyString lines)))
    as [[|corner features]|] eqn:Htok.
  1, 3: (unfold fromCSV, fromCSV_body;
         rewrite bool_decide_false by (rewrite Hasset; by intros [? ?]);
         by rewrite Hfs, Htok).
  rewrite (fromCSV_opened fs df asset path lines corner features) by done.
  set (df1 := {| formats := _ |}).
  pose proof (ingest_rows_index (tl lines) df1 asset features) as [Hf Ha].
  pose proof (ingest_rows_ordered (tl lines) df1 asset features) as Ho.
  destruct (ingest_rows df1 asset features (tl lines)) as [df2 c].
  simpl in *. intros [= <- _ Hc]. split_and!.
  - done.
  - rewrite Ha. by rewrite lookup_insert_eq.
  - done.
Qed.

(** *** [removeEmptyDates] *)

Lemma removeEmptyDates_loop_filter pending : ∀ kept,
  StdMap.ordered (kept ++ pending) →
  removeEmptyDates_loop pending (kept ++ pending) =
    kept ++ filter has_data pending.
Proof.
  induction pending as [|[date dataObj] pending IH]; intros kept Hord; simpl.
  - by rewrite filter_nil.
  - rewrite filter_cons. simpl.
    destruct (Data.empty dataObj) eqn:Hemp.
    + apply ordered_app_notin in Hord as Hnotin. destruct Hnotin as [Hnotin _].
      rewrite erase_middle by done.
      rewrite decide_False by done. apply IH.
      rewrite <-(erase_middle date dataObj kept pending) by done.
      by apply ordered_erase.
    + rewrite decide_True by done.
      rewrite (cons_middle _ kept pending), (assoc_L (++)) in Hord |- *.
      rewrite IH by done. by rewrite <-(assoc_L (++)).
Qed.

Lemma removeEmptyDates_filter df :
  StdMap.ordered (data df) →
  data (removeEmptyDates df) = filter has_data (data df).
Proof. intros Hord. simpl. by apply (removeEmptyDates_loop_filter (data df) []). Qed.

Lemma removeEmptyDates_ordered df :
  StdMap.ordered (data df) → StdMap.ordered (data (removeEmptyDates df)).
Proof.
  intros Hord. rewrite removeEmptyDates_filter by done. by apply ordered_filter.
Qed.

(** *** Every table a program can build is ordered *)

Lemma write_at_ordered df date dataObj :
  StdMap.ordered (data df) → StdMap.ordered (data (write_at df date dataObj)).
Proof.
  intros Hord. unfold write_at. destruct (StdMap.find _ _); [|done].
  simpl. by apply ordered_assign.
Qed.

Lemma setData_at_reachable df date asset feature val :
  reachable df → reachable (setData_at df date asset feature val).
Proof.
  intros Hreach. unfold setData_at. destruct (StdMap.find _ _); [|done].
  by apply reach_write.
Qed.

(** *** Lookups *)

Lemma getData_present_date df date dataObj asset feature :
  StdMap.find date (data df) = Some dataObj →
  getData df date asset feature =
    default Cxx.value_init (Data.entry dataObj asset feature).
Proof. intros Hfind. unfold getData. rewrite Hfind. apply getData_entry. Qed.

Lemma getData_absent_date df date asset feature :
  StdMap.find date (data df) = None →
  getData df date asset feature = Cxx.default_init.
Proof. intros Hfind. unfold getData. by rewrite Hfind. Qed.

Lemma fromCSV_path_eq fs df path :
  fromCSV_path fs df path = fromCSV fs df (asset_of_path path) path.
Proof.
  unfold fromCSV_path.
  destruct (fromCSV_completion fs df (asset_of_path path) path) as [Hc|Hc];
    destruct (fromCSV _ _ _ _) as [r c]; simpl in Hc; by subst c.
Qed.

Lemma reachable_ordered df : reachable df → StdMap.ordered (data df).
Proof.
  induction 1 as [|df format _ IH|fs df asset path df' out _ IH Hcsv
                 |fs df path df' out _ IH Hcsv
                 |df _ IH|df date dataObj _ IH].
  - constructor.
  - exact IH.
  - by apply (fromCSV_Normal _ _ _ _ _ _ Hcsv).
  - rewrite fromCSV_path_eq in Hcsv. by apply (fromCSV_Normal _ _ _ _ _ _ Hcsv).
  - by apply removeEmptyDates_ordered.
  - by apply write_at_ordered.
Qed.

Lemma filter_has_data_idemp (m : list (Z * gmap string (gmap string T))) :
  filter has_data (filter has_data m) = filter has_data m.
Proof.
  induction m as [|e m IH]; [done|].
  rewrite filter_cons. case_decide as He; [|exact IH].
  rewrite filter_cons, decide_True by done. by rewrite IH.
Qed.

(** *** Entries of a table *)


Lemma getData_entry_at df date asset feature v :
  entry_at df date asset feature = Some v → getData df date asset feature = v.
Proof.
  unfold entry_at, getData. destruct (StdMap.find date (data df)) as [d|]; [|done].
  simpl. intros Hv. by rewrite getData_entry, Hv.
Qed.

Lemma entry_insert_pairs_other pairs : ∀ dataObj asset a f,
  a ≠ asset →
  Data.entry (insert_pairs dataObj asset pairs) a f = Data.entry dataObj a f.
Proof.
  induction pairs as [|[feature token] pairs IH]; intros dataObj asset a f Hne; [done|].
  simpl. rewrite IH by done. rewrite entry_setData.
  by rewrite decide_False by (by intros [? _]).
Qed.

(** The entries after a row that is ingested. *)
Lemma ingest_row_entry_at df asset features row dateString rowData date a f :
  Boost.tokenize (remove_invalid row) = Some (dateString :: rowData) →
  (length features ≤ length rowData)%nat →
  entry_at (ingest_row df asset features row).1 date a f =
    if decide (date = parse_date (formats df) dateString Boost.not_a_date_time)
    then Data.entry
           (insert_pairs (default ∅ (StdMap.find date (data df))) asset
              (zip features rowData)) a f
    else entry_at df date a f.
Proof.
  intros Htok Hlen. unfold entry_at.
  destruct (ingest_row_find df asset features row _ _ Htok Hlen) as [_ Hfind].
  rewrite Hfind. case_decide; [by subst|done].
Qed.

(** *** Rows and header *)

(** C3, as the code has it.  The values of a row are paired with the
    features by index, and the index runs over the features only.  A row
    with a token for each feature is ingested: the Row Store of its date
    receives, for each feature, the token at the same index (unless the pair
    is set already, or the name stands earlier in the header), and the tokens
    beyond the features are ignored.  A row with fewer tokens than features
    is not: [rowData.at(i)] raises [std::out_of_range] at the first feature
    without a token, and neither [insertData] nor [fromCSV] returns
    normally. *)
Theorem insertData_pairs_by_feature_index :
  (∀ df asset features row dateString rowData,
     Boost.tokenize (remove_invalid row) = Some (dateString :: rowData) →
     (length features ≤ length rowData)%nat →
     let date := parse_date (formats df) dateString Boost.not_a_date_time in
     let before := default ∅ (StdMap.find date (data df)) in
     let after := insert_pairs before asset (zip features (take (length features) rowData)) in
     (ingest_row df asset features row).2 = Cxx.Normal
     ∧ StdMap.find date (data (ingest_row df asset features row).1) = Some after
     ∧ (∀ i feature token,
          features !! i = Some feature → rowData !! i = Some token →
          Data.entry before asset feature = None →
          (∀ j, (j < i)%nat → features !! j ≠ Some feature) →
          Data.getData after asset feature = convert token)
     ∧ (∀ row',
          Boost.tokenize (remove_invalid row') =
            Some (dateString :: take (length features) rowData) →
          ingest_row df asset features row' = ingest_row df asset features row))
  ∧ (∀ dataObj asset features rowData,
       (length rowData < length features)%nat →
       insertData_from (length features) 0 dataObj asset features rowData =
         (insert_pairs dataObj asset (zip features rowData),
          Cxx.Throws Cxx.out_of_range)
       ∧ (insertData dataObj asset features rowData).2 ≠ Cxx.Normal)
  ∧ (∀ fs df asset path lines corner features row dateString rowData,
       assetsToFeatures df !! asset = None →
       fs path = Some lines →
       Boost.tokenize (remove_invalid (hd EmptyString lines)) = Some (corner :: features) →
       row ∈ tl lines →
       Boost.tokenize (remove_invalid row) = Some (dateString :: rowData) →
       (length rowData < length features)%nat →
       (fromCSV fs df asset path).2 ≠ Cxx.Normal).
Proof.
  split_and!.
  - intros df asset features row dateString rowData Htok Hlen date before after.
    destruct (ingest_row_find df asset features row _ _ Htok Hlen) as [Hc Hfind].
    subst after. rewrite zip_with_take_r.
    split_and!.
    + exact Hc.
    + rewrite Hfind. by rewrite decide_True.
    + intros i feature token Hf Ht Hnone Hfirst.
      rewrite getData_entry.
      by rewrite (insert_pairs_index features rowData before asset i feature token).
    + intros row' Htok'.
      rewrite (ingest_row_tokens _ _ _ _ _ _ Htok), (ingest_row_tokens _ _ _ _ _ _ Htok').
      rewrite !insertData_enough by (rewrite ?length_take; lia).
      by rewrite zip_with_take_r.
  - intros dataObj asset features rowData Hlen.
    destruct (insertData_short dataObj asset features rowData Hlen) as [Hbody Hcall].
    by rewrite Hcall.
  - intros fs df asset path lines corner features row dateString rowData
      Hout Hfs Hhead Hrow Htok Hlen.
    set (df1 := {| formats := formats df;
                   assetsToFeatures :=
                     <[asset := list_to_set features]> (assetsToFeatures df);
                   data := data df |}).
    intros Hn. rewrite (fromCSV_opened fs df asset path lines corner features) in Hn by done.
    simpl in Hn. fold df1 in Hn. destruct (ingest_rows df1 _ _ _) as [df2 c] eqn:E.
    assert (c = Cxx.Normal) as -> by (by destruct c).
    pose proof (proj1 (ingest_rows_completion (tl lines) df1 asset features)) as Hall.
    rewrite E in Hall. specialize (Hall eq_refl).
    rewrite forallb_forall in Hall.
    specialize (Hall row). rewrite <-list_elem_of_In in Hall.
    specialize (Hall Hrow). unfold row_fits in Hall. rewrite Htok in Hall.
    apply bool_decide_eq_true in Hall. lia.
Qed.

(** *** Dates *)






(** *** Iteration order *)

(** C2.  In every table a program can build, whatever the order of the rows
    of the files it ingested, the keys met from [begin()] to [end()] are
    strictly increasing, the keys met from [rbegin()] to [rend()] are strictly
    decreasing, and both are the same keys (the second sequence is the first
    one reversed); maps filled with the same keys in two different orders are
    iterated in one and the same order. *)
Theorem iteration_in_timestamp_order df :
  reachable df →
  StronglySorted Z.lt (StdMap.forward (data df))
  ∧ StronglySorted Z.gt (StdMap.backward (data df))
  ∧ (∀ date, date ∈ StdMap.forward (data df) ↔ date ∈ StdMap.backward (data df))
  ∧ StdMap.backward (data df) = reverse (StdMap.forward (data df))
  ∧ (∀ (ks ks' : list Z) (d : gmap string (gmap string T)),
       ks ≡ₚ ks' →
       StdMap.forward (StdMap.emplace_all ks d) = StdMap.forward (StdMap.emplace_all ks' d)).
Proof.
  intros Hreach. pose proof (reachable_ordered df Hreach) as Hord.
  split_and!.
  - exact Hord.
  - rewrite backward_forward. by apply StronglySorted_reverse_gt.
  - intros date. by rewrite backward_forward, elem_of_reverse.
  - apply backward_forward.
  - intros ks ks' d Hperm. unfold StdMap.emplace_all.
    apply ordered_unique; [by apply ordered_foldl_emplace; constructor..|].
    intros k. rewrite !forward_foldl_emplace. by rewrite Hperm.
Qed.

(** *** Pruning *)

(** C8.  [removeEmptyDates()] erases the entries whose Row Store is empty and
    no other: a date is found afterwards exactly when it was found before
    with a Row Store that is not empty, and then with the same Row Store; the
    entries that stay keep their order, which is increasing; formats and
    asset index are untouched.  On a table of two dates, one with an empty
    and one with a non-empty Row Store, [size()] is 1 afterwards and the
    entry left is the non-empty one. *)
Theorem removeEmptyDates_erases_empty_dates df :
  StdMap.ordered (data df) →
  let df' := removeEmptyDates df in
  (∀ date, StdMap.find date (data df') =
             StdMap.find date (data df) ≫=
               (λ dataObj, if Data.empty dataObj then None else Some dataObj))
  ∧ data df' = filter has_data (data df)
  ∧ StdMap.ordered (data df')
  ∧ formats df' = formats df
  ∧ assetsToFeatures df' = assetsToFeatures df
  ∧ (∀ date_e empty_store date_n store,
       data df = [(date_e, empty_store); (date_n, store)]
       ∨ data df = [(date_n, store); (date_e, empty_store)] →
       Data.empty empty_store = true → Data.empty store = false →
       size df' = 1%nat ∧ data df' = [(date_n, store)]).
Proof.
  intros Hord df'. subst df'. split_and!.
  - intros date. rewrite removeEmptyDates_filter by done.
    rewrite (find_filter has_data) by done.
    destruct (StdMap.find date (data df)) as [dataObj|]; simpl; [|done].
    by destruct (Data.empty dataObj).
  - by apply removeEmptyDates_filter.
  - by apply removeEmptyDates_ordered.
  - done.
  - done.
  - intros date_e empty_store date_n store Hdata He Hn.
    unfold size. rewrite removeEmptyDates_filter by done.
    destruct Hdata as [-> | ->];
      rewrite !filter_cons, filter_nil; simpl; rewrite He, Hn; simpl; done.
Qed.

(** C10.  After [removeEmptyDates()] no date has an empty Row Store, and a
    second call changes nothing. *)
Theorem removeEmptyDates_idempotent df :
  StdMap.ordered (data df) →
  (∀ date dataObj,
     StdMap.find date (data (removeEmptyDates df)) = Some dataObj →
     Data.empty dataObj = false)
  ∧ removeEmptyDates (removeEmptyDates df) = removeEmptyDates df.
Proof.
  intros Hord. split.
  - intros date dataObj. rewrite removeEmptyDates_filter by done.
    rewrite (find_filter has_data) by done.
    destruct (StdMap.find date (data df)) as [d|]; simpl; [|done].
    case_decide; [|done]. by intros [= <-].
  - pose proof (removeEmptyDates_ordered df Hord) as Hord'.
    pose proof (removeEmptyDates_filter _ Hord') as Htwice.
    rewrite (removeEmptyDates_filter df Hord), filter_has_data_idemp in Htwice.
    rewrite <-(removeEmptyDates_filter df Hord) in Htwice.
    destruct (removeEmptyDates (removeEmptyDates df)) as [f a d] eqn:E2.
    destruct (removeEmptyDates df) as [f1 a1 d1] eqn:E1.
    unfold removeEmptyDates, with_data in E2. simpl in *.
    by simplify_eq.
Qed.

(** *** A second ingestion of an asset *)

(** C6.  [fromCSV(asset, path)] on a table whose asset index holds [asset]
    writes the line [Asset: <asset> already exists], returns normally and
    leaves the table as it was, for any path and file system; the table left
    by a call that returned is such a table, so a second call with the same
    asset, on any file, leaves the table of the first call. *)
Theorem fromCSV_duplicate_asset_is_noop :
  (∀ fs df asset path,
     containsAsset df asset = true →
     fromCSV fs df asset path =
       ((df, ["Asset: " +:+ asset +:+ " already exists"]), Cxx.Normal))
  ∧ (∀ fs1 fs2 df0 asset path1 path2 df1 out1,
       fromCSV fs1 df0 asset path1 = ((df1, out1), Cxx.Normal) →
       containsAsset df1 asset = true
       ∧ fromCSV fs2 df1 asset path2 =
           ((df1, ["Asset: " +:+ asset +:+ " already exists"]), Cxx.Normal)).
Proof.
  split.
  - intros fs df asset path Hin. apply fromCSV_registered.
    by apply bool_decide_eq_true in Hin.
  - intros fs1 fs2 df0 asset path1 path2 df1 out1 Hfirst.
    apply fromCSV_Normal in Hfirst as (_ & Hin & _).
    split; [by apply bool_decide_eq_true | by apply fromCSV_registered].
Qed.


End DataFrameFacts.

(** ** The day of the week *)

Section DayOfWeek.
Import Calendar.

Lemma leap_step (y : Z) :
  0 <= y →
  (y + 1) / 4 - (y + 1) / 100 + (y + 1) / 400 =
    y / 4 - y / 100 + y / 400 + (if is_leap_year (y + 1) then 1 else 0).
Proof.
  intros Hy. unfold is_leap_year.
  destruct (Z.eqb_spec ((y + 1) mod 4) 0) as [H4|H4];
    destruct (Z.eqb_spec ((y + 1) mod 100) 0) as [H100|H100];
    destruct (Z.eqb_spec ((y + 1) mod 400) 0) as [H400|H400];
    simpl; Z.div_mod_to_equations; lia.
Qed.

Lemma days_of_years_closed (n : nat) :
  days_of_years n =
    365 * Z.of_nat n + Z.of_nat n / 4 - Z.of_nat n / 100 + Z.of_nat n / 400.
Proof.
  induction n as [|n IH]; [done|].
  cbn [days_of_years]. rewrite IH. unfold days_in_year.
  replace (Z.of_nat (S n)) with (Z.of_nat n + 1) by lia.
  pose proof (leap_step (Z.of_nat n) ltac:(lia)) as Hstep.
  destruct (is_leap_year (Z.of_nat n + 1)); lia.
Qed.

Lemma getDayOfWeek_weekday (d : Boost.date) :
  1 <= Boost.year d →
  1 <= Boost.month d <= 12 →
  1 <= Boost.day d →
  DataFrame.getDayOfWeek d = weekday d.
Proof.
  destruct d as [y m dd]. simpl. intros Hy Hm Hd.
  unfold DataFrame.getDayOfWeek, weekday, day_number. simpl.
  rewrite days_of_years_closed, Z2Nat.id by lia.
  pose proof (leap_step (y - 1) ltac:(lia)) as Hstep.
  replace (y - 1 + 1) with y in Hstep by lia.
  assert (m = 1 ∨ m = 2 ∨ m = 3 ∨ m = 4 ∨ m = 5 ∨ m = 6 ∨ m = 7 ∨ m = 8
          ∨ m = 9 ∨ m = 10 ∨ m = 11 ∨ m = 12) as Hcases by lia.
  repeat (destruct Hcases as [->|Hcases]); try subst m;
    repeat match goal with
           | |- context [Z.to_nat ?e] =>
               let n := eval vm_compute in (Z.to_nat e) in
               change (Z.to_nat e) with n
           end;
    cbn [days_of_months nth DataFrame.t_table];
    repeat match goal with
           | |- context [Z.of_nat ?e] =>
               let n := eval vm_compute in (Z.of_nat e) in
               change (Z.of_nat e) with n
           end;
    unfold days_in_month;
    repeat match goal with
           | |- context [Z.eqb ?a ?b] =>
               let n := eval vm_compute in (Z.eqb a b) in
               change (Z.eqb a b) with n
           | |- context [Z.ltb ?a ?b] =>
               let n := eval vm_compute in (Z.ltb a b) in
               change (Z.ltb a b) with n
           end;
    cbn [orb]; cbv iota;
    destruct (is_leap_year y); cbv iota in Hstep |- *;
    rewrite !Z.quot_div_nonneg by lia;
    rewrite Z.rem_mod_nonneg by (Z.div_mod_to_equations; lia);
    Z.div_mod_to_equations; lia.
Qed.

(** C9.  On every date of the Gregorian calendar of Boost, [getDayOfWeek]
    is the day of the week, from 0 for Sunday to 6 for Saturday, found by
    counting the days from Monday 0001-01-01; 2020-01-01 gives 3 and
    2000-01-01 gives 6. *)
Theorem getDayOfWeek_correct (d : Boost.date) :
  valid d →
  DataFrame.getDayOfWeek d = weekday d
  ∧ 0 <= DataFrame.getDayOfWeek d <= 6
  ∧ DataFrame.getDayOfWeek (Boost.mk_date 2020 1 1) = 3
  ∧ DataFrame.getDayOfWeek (Boost.mk_date 2000 1 1) = 6.
Proof.
  intros (Hy & Hm & Hd).
  assert (DataFrame.getDayOfWeek d = weekday d) as Heq
    by (apply getDayOfWeek_weekday; lia).
  split_and!; [done| | |done..].
  - rewrite Heq. unfold weekday. apply Z.mod_pos_bound. lia.
  - rewrite Heq. unfold weekday.
    pose proof (Z.mod_pos_bound (1 + day_number d) 7 ltac:(lia)). lia.
Qed.

End DayOfWeek.

(** ** Sanitising rows and naming assets *)

Section Text.
Import DataFrame.
Implicit Types (row s : string) (c : ascii) (chars : list ascii).

Lemma remove_invalid_filter row :
  list_ascii_of_string (remove_invalid row) =
    filter (λ c, invalidCharLambda c = false) (list_ascii_of_string row).
Proof.
  induction row as [|c row IH]; simpl; [done|].
  rewrite filter_cons. destruct (invalidCharLambda c) eqn:Hc.
  - by rewrite decide_False.
  - rewrite decide_True by done. simpl. by rewrite IH.
Qed.

Lemma remove_invalid_valid row :
  Forall (λ c, invalidCharLambda c = false) (list_ascii_of_string row) →
  remove_invalid row = row.
Proof.
  induction row as [|c row IH]; simpl; [done|].
  intros [Hc Hrow]%Forall_cons. rewrite Hc. by rewrite IH.
Qed.


(** X1.  Sanitising a row keeps, in their order, exactly the characters with
    a code from 32 to 126: none of the others is left, a row made of such
    characters is left as it is, and sanitising twice is sanitising once. *)
Theorem remove_invalid_keeps_printable row :
  list_ascii_of_string (remove_invalid row) =
    filter (λ c, invalidCharLambda c = false) (list_ascii_of_string row)
  ∧ Forall (λ c, 32 <= Z.of_N (N_of_ascii c) < 127)
      (list_ascii_of_string (remove_invalid row))
  ∧ remove_invalid (remove_invalid row) = remove_invalid row
  ∧ (Forall (λ c, 32 <= Z.of_N (N_of_ascii c) < 127) (list_ascii_of_string row) →
     remove_invalid row = row).
Proof.
  assert (∀ c, invalidCharLambda c = false ↔ 32 <= Z.of_N (N_of_ascii c) < 127) as Hrange.
  { intros c. unfold invalidCharLambda. rewrite negb_false_iff, andb_true_iff.
    rewrite Z.leb_le, Z.ltb_lt. done. }
  assert (Forall (λ c, invalidCharLambda c = false)
            (list_ascii_of_string (remove_invalid row))) as Hall.
  { rewrite remove_invalid_filter. apply Forall_forall.
    intros c Hc. by apply list_elem_of_filter in Hc as [? _]. }
  split_and!.
  - apply remove_invalid_filter.
  - eapply Forall_impl; [exact Hall|]. intros c. by rewrite Hrange.
  - by apply remove_invalid_valid.
  - intros Hrow. apply remove_invalid_valid.
    eapply Forall_impl; [exact Hrow|]. intros c. by rewrite Hrange.
Qed.

(** *** [find_last_of] and [substr] on a text cut in two *)

Lemma find_last_of_from_none chars s : ∀ pos,
  Forall (λ c, c ∉ chars) (list_ascii_of_string s) →
  find_last_of_from chars s pos = None.
Proof.
  induction s as [|c s IH]; intros pos; simpl; [done|].
  intros [Hc Hs]%Forall_cons. rewrite IH by done.
  by rewrite bool_decide_false.
Qed.

Lemma find_last_of_from_last chars s1 c s2 : ∀ pos,
  c ∈ chars →
  Forall (λ c, c ∉ chars) (list_ascii_of_string s2) →
  find_last_of_from chars (s1 +:+ String c s2) pos = Some (pos + String.length s1)%nat.
Proof.
  induction s1 as [|a s1 IH]; intros pos Hc Hs2; simpl.
  - rewrite find_last_of_from_none by done.
    rewrite bool_decide_true by done. f_equal. lia.
  - rewrite IH by done. f_equal. lia.
Qed.

Lemma substr_from_append s1 c s2 :
  substr_from (S (String.length s1)) (s1 +:+ String c s2) = s2.
Proof. induction s1 as [|a s1 IH]; simpl; [done|exact IH]. Qed.

Lemma string_take_append s1 s2 :
  string_take (String.length s1) (s1 +:+ s2) = s1.
Proof.
  induction s1 as [|a s1 IH]; simpl; [by destruct s2|]. by rewrite IH.
Qed.

(** X3.  The asset that [fromCSV(path)] derives from a path is the file name
    without what follows its last dot: the directory, up to the last slash or
    backslash, is dropped with the dots it may hold, the dots of the name
    before the last one are kept, and a name without a dot is kept whole. *)
Theorem asset_of_path_is_the_base_name :
  (∀ dir sep name ext,
     sep ∈ [slash; backslash] →
     Forall (λ c, c ∉ [slash; backslash]) (list_ascii_of_string name) →
     Forall (λ c, c ∉ [slash; backslash]) (list_ascii_of_string ext) →
     Forall (λ c, c ∉ [dot]) (list_ascii_of_string ext) →
     asset_of_path (dir +:+ String sep (name +:+ String dot ext)) = name)
  ∧ (∀ name ext,
       Forall (λ c, c ∉ [slash; backslash]) (list_ascii_of_string name) →
       Forall (λ c, c ∉ [slash; backslash]) (list_ascii_of_string ext) →
       Forall (λ c, c ∉ [dot]) (list_ascii_of_string ext) →
       asset_of_path (name +:+ String dot ext) = name)
  ∧ (∀ dir sep name,
       sep ∈ [slash; backslash] →
       Forall (λ c, c ∉ [slash; backslash; dot]) (list_ascii_of_string name) →
       asset_of_path (dir +:+ String sep name) = name).
Proof.
  assert (dot ∉ [slash; backslash]) as Hdot.
  { intros Hin. repeat (apply elem_of_cons in Hin as [Hin|Hin]; [discriminate Hin|]).
    by apply elem_of_nil in Hin. }
  assert (∀ name ext,
    Forall (λ c, c ∉ [dot]) (list_ascii_of_string ext) →
    substr_to (find_last_of [dot] (name +:+ String dot ext)) (name +:+ String dot ext)
      = name) as Hext.
  { intros name ext Hfree. unfold find_last_of.
    rewrite find_last_of_from_last; [|by left|done].
    simpl. apply string_take_append. }
  assert (∀ name ext,
    Forall (λ c, c ∉ [slash; backslash]) (list_ascii_of_string name) →
    Forall (λ c, c ∉ [slash; backslash]) (list_ascii_of_string ext) →
    Forall (λ c, c ∉ [slash; backslash])
      (list_ascii_of_string (name +:+ String dot ext))) as Hfree2.
  { intros name ext Hn He. induction name as [|a name IH]; simpl.
    - by constructor.
    - apply Forall_cons in Hn as [Ha Hn]. constructor; [done|by apply IH]. }
  split_and!.
  - intros dir sep name ext Hsep Hn He Hd. unfold asset_of_path.
    unfold find_last_of in Hext |- *. cbv zeta.
    rewrite (find_last_of_from_last [slash; backslash]); [|done|by apply Hfree2].
    simpl (0 + _)%nat. rewrite substr_from_append. by apply Hext.
  - intros name ext Hn He Hd. unfold asset_of_path.
    unfold find_last_of in Hext |- *. cbv zeta.
    rewrite (find_last_of_from_none [slash; backslash]) by (by apply Hfree2).
    simpl substr_from. by apply Hext.
  - intros dir sep name Hsep Hn. unfold asset_of_path, find_last_of. cbv zeta.
    rewrite (find_last_of_from_last [slash; backslash]); [|done|].
    2: { eapply Forall_impl; [exact Hn|]. intros c Hc Hin. apply Hc.
         apply elem_of_cons in Hin as [->|Hin]; [by left|].
         right. apply elem_of_cons in Hin as [->|Hin]; [by left|].
         by apply elem_of_nil in Hin. }
    simpl (0 + _)%nat. rewrite substr_from_append.
    rewrite find_last_of_from_none; [done|].
    eapply Forall_impl; [exact Hn|]. intros c Hc Hin. apply Hc.
    apply elem_of_cons in Hin as [->|Hin]; [|by apply elem_of_nil in Hin].
    right. right. by left.
Qed.

End Text.

(** ** More on the Row Store *)

Section DataMore.
Context {T : Type} `{!Cxx.ValueType T}.
Implicit Types (data : gmap string (gmap string T)) (asset feature : string).
Import Data.

Lemma lookup_setData data asset feature val a :
  setData data asset feature val !! a =
    if decide (a = asset)
    then Some (match data !! asset with
               | None => {[feature := val]}
               | Some type_map =>
                   match type_map !! feature with
                   | None => <[feature := val]> type_map
                   | Some _ => type_map
                   end
               end)
    else data !! a.
Proof.
  unfold setData. destruct (data !! asset) as [m|] eqn:Ha.
  - destruct (m !! feature) as [v|] eqn:Hf.
    + case_decide; by simplify_eq.
    + case_decide; simplify_eq; [by rewrite lookup_insert_eq|by rewrite lookup_insert_ne].
  - case_decide; simplify_eq; [by rewrite lookup_insert_eq|by rewrite lookup_insert_ne].
Qed.

(** X4.  [setData(asset, feature, val)] changes nothing but the pair it is
    given: every other pair reads as before.  The store is not empty
    afterwards, and its size, the number of assets, is one more when the
    asset is new and the same when the store has the asset. *)
Theorem setData_touches_one_pair data asset feature val :
  (∀ a f, ¬ (a = asset ∧ f = feature) →
          getData (setData data asset feature val) a f = getData data a f)
  ∧ empty (setData data asset feature val) = false
  ∧ size (setData data asset feature val) =
      (if data !! asset is Some _ then size data else S (size data)).
Proof.
  split_and!.
  - intros a f Hne. rewrite !getData_entry, entry_setData.
    by rewrite decide_False.
  - apply bool_decide_eq_false. apply setData_not_empty.
  - unfold size, setData. destruct (data !! asset) as [m|] eqn:Ha.
    + destruct (m !! feature); [done|].
      pose proof (map_size_insert asset (<[feature := val]> m) data) as Hs.
      rewrite Ha in Hs. exact Hs.
    + by apply (map_size_insert_None (M := gmap string)).
Qed.

(** X5.  Two [setData] calls on different pairs can be made in either
    order: the store is the same. *)
Theorem setData_commutes data asset feature val asset' feature' val' :
  ¬ (asset = asset' ∧ feature = feature') →
  setData (setData data asset feature val) asset' feature' val' =
  setData (setData data asset' feature' val') asset feature val.
Proof.
  intros Hne. apply map_eq. intros a.
  rewrite !lookup_setData.
  destruct (decide (asset = asset')) as [->|Hassets].
  - assert (feature ≠ feature') as Hf by (intros ->; apply Hne; split; reflexivity).
    rewrite !(decide_True (P := asset' = asset')) by done.
    destruct (decide (a = asset')) as [_|_]; [|done]. f_equal.
    destruct (data !! asset') as [m|]; simpl.
    + destruct (m !! feature) eqn:E1; destruct (m !! feature') eqn:E2;
        rewrite ?E1, ?E2, ?lookup_insert_ne, ?E1, ?E2 by done; try done.
      by apply insert_insert_ne.
    + rewrite !lookup_singleton_ne by done.
      rewrite <-!insert_empty. by apply insert_insert_ne.
  - repeat case_decide; by simplify_eq.
Qed.

End DataMore.

(** ** More on the Table *)

Section DataFrameMore.
Context {T : Type} {VT : Cxx.ValueType T} {lib : Boost.Library}.
Implicit Types (df : DataFrame.t T) (dataObj : gmap string (gmap string T)).
Implicit Types (asset feature row dateString : string) (features rowData : list string).
Import DataFrame.

(** *** Rows that are ingested *)

Lemma ingest_row_Normal df asset features row :
  (ingest_row df asset features row).2 = Cxx.Normal →
  ∃ dateString rowData,
    Boost.tokenize (remove_invalid row) = Some (dateString :: rowData)
    ∧ (length features ≤ length rowData)%nat.
Proof.
  rewrite ingest_row_fits. unfold row_fits.
  destruct (Boost.tokenize _) as [[|dateString rowData]|]; [done| |done].
  intros Hlen%bool_decide_eq_true. by exists dateString, rowData.
Qed.

Lemma row_date_formats df df' row :
  formats df = formats df' → row_date df row = row_date df' row.
Proof. intros Hf. unfold row_date. by rewrite Hf. Qed.

(** What holds of a table before the rows of a file and is kept by each row
    that is ingested holds after the rows, when all of them are ingested. *)
Lemma ingest_rows_invariant (P : DataFrame.t T → Prop) fmts asset features rows :
  (∀ df row, formats df = fmts → P df →
             (ingest_row df asset features row).2 = Cxx.Normal →
             P (ingest_row df asset features row).1) →
  ∀ df, formats df = fmts → P df →
        (ingest_rows df asset features rows).2 = Cxx.Normal →
        P (ingest_rows df asset features rows).1.
Proof.
  intros Hstep. induction rows as [|row rows IH]; intros df Hf HP; simpl; [done|].
  pose proof (Hstep df row Hf HP) as Hrow.
  pose proof (ingest_row_index df asset features row) as [Hf' _].
  destruct (ingest_row df asset features row) as [df1 c]. simpl in *.
  destruct c; simpl; try done.
  intros Hc. apply IH; [congruence | by apply Hrow | done].
Qed.

Lemma insert_pairs_not_empty pairs : ∀ dataObj asset,
  dataObj ≠ ∅ ∨ pairs ≠ [] → insert_pairs dataObj asset pairs ≠ ∅.
Proof.
  induction pairs as [|[feature token] pairs IH]; intros dataObj asset Hor; simpl.
  - by destruct Hor.
  - apply IH. left. apply setData_not_empty.
Qed.

Lemma ingest_row_entry_kept df asset features row date a f v :
  (ingest_row df asset features row).2 = Cxx.Normal →
  entry_at df date a f = Some v →
  entry_at (ingest_row df asset features row).1 date a f = Some v.
Proof.
  intros (dateString & rowData & Htok & Hlen)%ingest_row_Normal Hv.
  rewrite (ingest_row_entry_at _ _ _ _ _ _ _ _ _ Htok Hlen).
  case_decide; [|done]. apply entry_insert_pairs_kept.
  unfold entry_at in Hv. by destruct (StdMap.find date (data df)).
Qed.

Lemma ingest_row_entry_other df asset features row date a f :
  (ingest_row df asset features row).2 = Cxx.Normal →
  a ≠ asset →
  entry_at (ingest_row df asset features row).1 date a f = entry_at df date a f.
Proof.
  intros (dateString & rowData & Htok & Hlen)%ingest_row_Normal Hne.
  rewrite (ingest_row_entry_at _ _ _ _ _ _ _ _ _ Htok Hlen).
  case_decide; [|done]. rewrite entry_insert_pairs_other by done.
  unfold entry_at. by destruct (StdMap.find date (data df)).
Qed.

(** *** Control characters *)



(** *** Formats *)

Lemma parse_date_app fmts added dateString :
  parse_date (fmts ++ added) dateString Boost.not_a_date_time =
    if decide (parse_date fmts dateString Boost.not_a_date_time = Boost.not_a_date_time)
    then parse_date added dateString Boost.not_a_date_time
    else parse_date fmts dateString Boost.not_a_date_time.
Proof.
  induction fmts as [|format fmts IH]; cbn [parse_date app].
  - by rewrite decide_True.
  - case_bool_decide as Hdate.
    + by rewrite decide_False.
    + rewrite Hdate. exact IH.
Qed.

(** X6.  Formats added with [addDateFormat] are tried after the ones the
    table has: a date text that these read keeps its date, whatever is added,
    and the added formats decide, in their order, for the other texts. *)
Theorem addDateFormat_keeps_the_dates_read df added dateString :
  parse_date (formats (addDateFormats df added)) dateString Boost.not_a_date_time =
    if decide (parse_date (formats df) dateString Boost.not_a_date_time
               = Boost.not_a_date_time)
    then parse_date added dateString Boost.not_a_date_time
    else parse_date (formats df) dateString Boost.not_a_date_time.
Proof.
  assert (∀ df0 : DataFrame.t T, formats (addDateFormats df0 added) = formats df0 ++ added)
    as Hformats.
  { induction added as [|f added IH]; intros df0; simpl.
    - by rewrite app_nil_r.
    - rewrite IH. simpl. by rewrite <-(assoc_L (++)). }
  rewrite Hformats. apply parse_date_app.
Qed.

(** *** When [fromCSV] returns *)

Lemma fromCSV_Normal_cases fs df asset path df' out :
  fromCSV fs df asset path = ((df', out), Cxx.Normal) →
  (is_Some (assetsToFeatures df !! asset) ∧ df' = df)
  ∨ (∃ lines corner features,
       assetsToFeatures df !! asset = None
       ∧ fs path = Some lines
       ∧ Boost.tokenize (remove_invalid (hd EmptyString lines)) = Some (corner :: features)
       ∧ out = []
       ∧ ingest_rows
           {| formats := formats df;
              assetsToFeatures := <[asset := list_to_set features]> (assetsToFeatures df);
              data := data df |} asset features (tl lines) = (df', Cxx.Normal)).
Proof.
  destruct (assetsToFeatures df !! asset) as [fset|] eqn:Hasset.
  { rewrite fromCSV_registered by (by rewrite Hasset).
    intros [= <- _]. by left. }
  destruct (fs path) as [lines|] eqn:Hfs.
  2: { destruct (fromCSV_unopened fs df asset path Hasset Hfs) as [_ ->]. done. }
  destruct (Boost.tokenize (remove_invalid (hd EmptyString lines)))
    as [[|corner features]|] eqn:Htok.
  1, 3: (unfold fromCSV, fromCSV_body;
         rewrite bool_decide_false by (rewrite Hasset; by intros [? ?]);
         by rewrite Hfs, Htok).
  rewrite (fromCSV_opened fs df asset path lines corner features) by done.
  destruct (ingest_rows _ asset features (tl lines)) as [df2 c] eqn:Hrows.
  simpl. intros [= <- <- Hc]. right. exists lines, corner, features.
  split_and!; try done. destruct c; by simplify_eq.
Qed.

(** X7.  For an asset that the table does not have, [fromCSV] returns
    exactly when the file opens, its first line has a token, and every other
    line has a first token and as many further tokens as the header has
    features (no tokenizer error in any of them). *)
Theorem fromCSV_returns_iff fs df asset path :
  assetsToFeatures df !! asset = None →
  (fromCSV fs df asset path).2 = Cxx.Normal
  ↔ ∃ lines corner features,
      fs path = Some lines
      ∧ Boost.tokenize (remove_invalid (hd EmptyString lines)) = Some (corner :: features)
      ∧ ∀ row, row ∈ tl lines →
          ∃ dateString rowData,
            Boost.tokenize (remove_invalid row) = Some (dateString :: rowData)
            ∧ (length features ≤ length rowData)%nat.
Proof.
  intros Hasset. split.
  - destruct (fromCSV fs df asset path) as [[df' out] c] eqn:Hcsv. simpl.
    intros ->. apply fromCSV_Normal_cases in Hcsv as [[Hin _]|Hopen].
    { rewrite Hasset in Hin. by destruct Hin. }
    destruct Hopen as (lines & corner & features & _ & Hfs & Htok & _ & Hrows).
    exists lines, corner, features. split_and!; [done..|].
    intros row Hrow.
    match type of Hrows with ingest_rows ?d _ _ _ = _ =>
      pose proof (proj1 (ingest_rows_completion (tl lines) d asset features)) as Hall
    end.
    rewrite Hrows in Hall. specialize (Hall eq_refl).
    rewrite forallb_forall in Hall. specialize (Hall row).
    rewrite <-list_elem_of_In in Hall. specialize (Hall Hrow).
    unfold row_fits in Hall.
    destruct (Boost.tokenize (remove_invalid row)) as [[|dateString rowData]|];
      [done| |done].
    apply bool_decide_eq_true in Hall. by exists dateString, rowData.
  - intros (lines & corner & features & Hfs & Htok & Hrows).
    rewrite (fromCSV_opened fs df asset path lines corner features) by done.
    simpl.
    match goal with |- context [ingest_rows ?d _ _ _] => set (df1 := d) end.
    pose proof (proj2 (ingest_rows_completion (tl lines) df1 asset features)) as Hall.
    destruct (ingest_rows df1 asset features (tl lines)) as [df2 c]. simpl in *.
    rewrite Hall; [done|]. apply forallb_forall. intros row Hrow.
    apply list_elem_of_In in Hrow.
    destruct (Hrows row Hrow) as (dateString & rowData & Htok' & Hlen).
    unfold row_fits. rewrite Htok'. by apply bool_decide_eq_true.
Qed.

(** X8.  When [fromCSV] returns for an asset that the table did not have,
    the asset index holds the asset with the set of the header names after
    the first one (a name that the header repeats is there once), the other
    assets keep their features, the formats are the same and nothing was
    written to [std::cout]. *)
Theorem fromCSV_registers_the_header fs df asset path lines corner features df' out :
  assetsToFeatures df !! asset = None →
  fs path = Some lines →
  Boost.tokenize (remove_invalid (hd EmptyString lines)) = Some (corner :: features) →
  fromCSV fs df asset path = ((df', out), Cxx.Normal) →
  containsAsset df' asset = true
  ∧ (∃ fset, getAssetAndFeatures df' !! asset = Some fset
             ∧ ∀ feature, feature ∈ fset ↔ feature ∈ features)
  ∧ (∀ a, a ≠ asset → getAssetAndFeatures df' !! a = getAssetAndFeatures df !! a)
  ∧ formats df' = formats df
  ∧ out = [].
Proof.
  intros Hasset Hfs Htok Hcsv.
  apply fromCSV_Normal_cases in Hcsv as [[Hin _]|Hopen].
  { rewrite Hasset in Hin. by destruct Hin. }
  destruct Hopen as (lines' & corner' & features' & _ & Hfs' & Htok' & Hout & Hrows).
  assert (lines' = lines) as -> by congruence.
  assert (features' = features) as -> by congruence.
  pose proof (ingest_rows_index (tl lines)
    {| formats := formats df;
       assetsToFeatures := <[asset := list_to_set features]> (assetsToFeatures df);
       data := data df |} asset features) as [Hf Ha].
  rewrite Hrows in Hf, Ha. simpl in Hf, Ha. unfold containsAsset, getAssetAndFeatures.
  rewrite Ha. split_and!.
  - apply bool_decide_eq_true. by rewrite lookup_insert_eq.
  - exists (list_to_set features). split; [by rewrite lookup_insert_eq|].
    intros feature. by rewrite elem_of_list_to_set.
  - intros a Hne. by rewrite lookup_insert_ne.
  - done.
  - done.
Qed.

(** *** What ingestion leaves in place *)

(** X9.  When [fromCSV] returns, every value that the table held is still
    there and reads the same, every date of the table is still a date of the
    table, and the entries of all the assets but the one ingested are the
    ones the table had. *)
Theorem fromCSV_keeps_what_the_table_holds fs df asset path df' out :
  fromCSV fs df asset path = ((df', out), Cxx.Normal) →
  (∀ date a f v, entry_at df date a f = Some v →
                 entry_at df' date a f = Some v ∧ getData df' date a f = v)
  ∧ (∀ date, containsDate df date = true → containsDate df' date = true)
  ∧ (∀ date a f, a ≠ asset → entry_at df' date a f = entry_at df date a f).
Proof.
  intros [[_ ->]|Hopen]%fromCSV_Normal_cases.
  { split_and!; [|done..]. intros date a f v Hv. split; [done|].
    by apply getData_entry_at. }
  destruct Hopen as (lines & corner & features & _ & _ & _ & _ & Hrows).
  match type of Hrows with ingest_rows ?d _ _ _ = _ => set (df1 := d) in * end.
  assert ((ingest_rows df1 asset features (tl lines)).2 = Cxx.Normal) as Hc
    by (by rewrite Hrows).
  assert (∀ date a f v, entry_at df date a f = Some v → entry_at df' date a f = Some v)
    as Hkept.
  { intros date a f v Hv.
    pose proof (ingest_rows_invariant (λ d, entry_at d date a f = Some v)
                  (formats df) asset features (tl lines)) as Hinv.
    replace df' with (ingest_rows df1 asset features (tl lines)).1
      by (by rewrite Hrows).
    apply Hinv; [|done..].
    intros d row _ Hd Hn. by apply ingest_row_entry_kept. }
  split_and!.
  - intros date a f v Hv. split; [by apply Hkept|].
    by apply getData_entry_at, Hkept.
  - intros date Hdate%bool_decide_eq_true. apply bool_decide_eq_true.
    pose proof (ingest_rows_invariant (λ d, is_Some (StdMap.find date (data d)))
                  (formats df) asset features (tl lines)) as Hinv.
    replace df' with (ingest_rows df1 asset features (tl lines)).1
      by (by rewrite Hrows).
    apply Hinv; [|done..].
    intros d row _ Hd (dateString & rowData & Htok & Hlen)%ingest_row_Normal.
    destruct (ingest_row_find d asset features row _ _ Htok Hlen) as [_ Hfind].
    rewrite Hfind. by case_decide.
  - intros date a f Hne.
    pose proof (ingest_rows_invariant
                  (λ d, entry_at d date a f = entry_at df date a f)
                  (formats df) asset features (tl lines)) as Hinv.
    replace df' with (ingest_rows df1 asset features (tl lines)).1
      by (by rewrite Hrows).
    apply Hinv; [|done..].
    intros d row _ Hd Hn. by rewrite ingest_row_entry_other.
Qed.

(** *** The dates after ingestion *)

Lemma length_assign {V} k (v : V) m : length (StdMap.assign k v m) = length m.
Proof.
  induction m as [|[k0 v0] m IH]; simpl; [done|].
  destruct (k =? k0); simpl; by rewrite ?IH.
Qed.

Lemma length_emplace {V} k (v : V) m :
  (length m ≤ length (StdMap.emplace k v m) ≤ S (length m))%nat.
Proof.
  induction m as [|[k0 v0] m IH]; simpl; [lia|].
  destruct (k <? k0); simpl; [lia|]. destruct (k =? k0); simpl; lia.
Qed.

Lemma ingest_rows_dates rows : ∀ df asset features,
  (ingest_rows df asset features rows).2 = Cxx.Normal →
  (∀ date,
     is_Some (StdMap.find date (data (ingest_rows df asset features rows).1))
     ↔ is_Some (StdMap.find date (data df))
       ∨ ∃ row, row ∈ rows ∧ row_date df row = Some date)
  ∧ (size df ≤ size (ingest_rows df asset features rows).1 ≤ size df + length rows)%nat.
Proof.
  induction rows as [|row rows IH]; intros df asset features; simpl.
  - intros _. split; [|lia]. intros date. split; [by left|].
    intros [?|(row & Hin & _)]; [done|]. by apply elem_of_nil in Hin.
  - pose proof (ingest_row_index df asset features row) as [Hf _].
    pose proof (ingest_row_Normal df asset features row) as Hrow.
    destruct (ingest_row df asset features row) as [df1 c] eqn:E. simpl in *.
    destruct c; simpl; try done. intros Hc.
    destruct (Hrow eq_refl) as (dateString & rowData & Htok & Hlen).
    destruct (ingest_row_find df asset features row _ _ Htok Hlen) as [_ Hfind].
    rewrite E in Hfind. simpl in Hfind.
    destruct (IH df1 asset features Hc) as [Hdates Hsize].
    assert (row_date df row =
            Some (parse_date (formats df) dateString Boost.not_a_date_time)) as Hrd
      by (unfold row_date; by rewrite Htok).
    split.
    + intros date. rewrite Hdates, Hfind. split.
      * intros [Hsome|(row' & Hin & Hd)].
        -- case_decide as Hdate; [|by left].
           right. exists row. split; [by left|]. by rewrite Hrd, Hdate.
        -- right. exists row'. split; [by right|].
           by rewrite (row_date_formats df df1).
      * intros [Hsome|(row' & Hin & Hd)].
        -- left. by case_decide.
        -- apply elem_of_cons in Hin as [->|Hin].
           ++ left. rewrite Hrd in Hd. simplify_eq. by rewrite decide_True.
           ++ right. exists row'. split; [done|].
              by rewrite <-(row_date_formats df df1).
    + assert (size df ≤ size df1 ≤ S (size df))%nat as Hone.
      { pose proof (f_equal fst E) as E1. simpl in E1. rewrite <-E1.
        rewrite (ingest_row_tokens _ _ _ _ _ _ Htok). simpl.
        unfold size, StdMap.size. simpl. rewrite length_assign.
        destruct (StdMap.find _ (data df)); [lia|]. apply length_emplace. }
      lia.
Qed.

(** X10.  When [fromCSV] returns after reading a file for a new asset, the
    dates of the table are the dates it had and the dates of the lines after
    the first: none is lost, none comes from elsewhere, and [size()] grows by
    at most the number of these lines. *)
Theorem fromCSV_dates fs df asset path lines df' out :
  assetsToFeatures df !! asset = None →
  fs path = Some lines →
  fromCSV fs df asset path = ((df', out), Cxx.Normal) →
  (∀ date, containsDate df' date = true
           ↔ containsDate df date = true
             ∨ ∃ row, row ∈ tl lines ∧ row_date df row = Some date)
  ∧ (size df ≤ size df' ≤ size df + length (tl lines))%nat.
Proof.
  intros Hasset Hfs [[Hin _]|Hopen]%fromCSV_Normal_cases.
  { rewrite Hasset in Hin. by destruct Hin. }
  destruct Hopen as (lines' & corner & features & _ & Hfs' & _ & _ & Hrows).
  assert (lines' = lines) as -> by congruence.
  match type of Hrows with ingest_rows ?d _ _ _ = _ => set (df1 := d) in * end.
  destruct (ingest_rows_dates (tl lines) df1 asset features) as [Hdates Hsize];
    [by rewrite Hrows|].
  rewrite Hrows in Hdates, Hsize. simpl in Hdates, Hsize.
  split; [|exact Hsize].
  intros date. unfold containsDate. rewrite !bool_decide_eq_true. exact (Hdates date).
Qed.

(** *** Reading back what was ingested *)

Lemma ingest_rows_entry_kept rows : ∀ df asset features date a f v,
  (ingest_rows df asset features rows).2 = Cxx.Normal →
  entry_at df date a f = Some v →
  entry_at (ingest_rows df asset features rows).1 date a f = Some v.
Proof.
  intros df asset features date a f v Hc Hv.
  apply (ingest_rows_invariant (λ d, entry_at d date a f = Some v)
           (formats df) asset features rows); [|done..].
  intros d row _ Hd Hn. by apply ingest_row_entry_kept.
Qed.

Lemma ingest_rows_round_trip rows : ∀ df asset features k row date i feature token,
  (ingest_rows df asset features rows).2 = Cxx.Normal →
  rows !! k = Some row →
  row_date df row = Some date →
  (∀ j row', (j < k)%nat → rows !! j = Some row' → row_date df row' ≠ Some date) →
  entry_at df date asset feature = None →
  features !! i = Some feature →
  (∀ j, (j < i)%nat → features !! j ≠ Some feature) →
  row_values row !! i = Some token →
  entry_at (ingest_rows df asset features rows).1 date asset feature
    = Some (convert token).
Proof.
  induction rows as [|row0 rows IH];
    intros df asset features k row date i feature token Hc Hk Hdate Hfirst Hnone
      Hf Hfeat Htoken; [done|].
  simpl in Hc |- *.
  pose proof (ingest_row_index df asset features row0) as [Hfmt _].
  pose proof (ingest_row_Normal df asset features row0) as Hrow0.
  destruct (ingest_row df asset features row0) as [df1 c] eqn:E. simpl in *.
  destruct c; simpl in *; try done.
  destruct (Hrow0 eq_refl) as (dateString & rowData & Htok & Hlen).
  pose proof (ingest_row_entry_at df asset features row0 dateString rowData
                date asset feature Htok Hlen) as Hentry.
  rewrite E in Hentry. simpl in Hentry.
  destruct k as [|k]; simpl in Hk.
  - simplify_eq. apply ingest_rows_entry_kept; [done|].
    rewrite Hentry. unfold row_date in Hdate. rewrite Htok in Hdate. simplify_eq.
    rewrite decide_True by done.
    unfold row_values in Htoken. rewrite Htok in Htoken.
    apply (insert_pairs_index features rowData _ asset i feature token); try done.
    unfold entry_at in Hnone. by destruct (StdMap.find _ (data df)).
  - apply (IH df1 asset features k row date i feature token); try done.
    + by rewrite <-(row_date_formats df df1).
    + intros j row' Hj Hrow'. rewrite <-(row_date_formats df df1) by done.
      apply (Hfirst (S j)); [lia|done].
    + rewrite Hentry. rewrite decide_False; [done|].
      intros ->. apply (Hfirst 0%nat row0); [lia|done|].
      unfold row_date. by rewrite Htok.
Qed.

(** X11.  What [fromCSV] read can be read back.  When it returns for a new
    asset, take a line after the header, the first one of its date in the
    file, and a feature at its first place in the header: if the table held
    no value for that date, asset and feature, [getData] now returns the
    value converted from the token of the line at the place of the feature. *)
Theorem fromCSV_then_getData fs df asset path lines corner features df' out
    k row date i feature token :
  assetsToFeatures df !! asset = None →
  fs path = Some lines →
  Boost.tokenize (remove_invalid (hd EmptyString lines)) = Some (corner :: features) →
  fromCSV fs df asset path = ((df', out), Cxx.Normal) →
  tl lines !! k = Some row →
  row_date df row = Some date →
  (∀ j row', (j < k)%nat → tl lines !! j = Some row' → row_date df row' ≠ Some date) →
  entry_at df date asset feature = None →
  features !! i = Some feature →
  (∀ j, (j < i)%nat → features !! j ≠ Some feature) →
  row_values row !! i = Some token →
  containsDate df' date = true
  ∧ getData df' date asset feature = convert token.
Proof.
  intros Hasset Hfs Htok [[Hin _]|Hopen]%fromCSV_Normal_cases
    Hk Hdate Hfirst Hnone Hf Hfeat Htoken.
  { rewrite Hasset in Hin. by destruct Hin. }
  destruct Hopen as (lines' & corner' & features' & _ & Hfs' & Htok' & _ & Hrows).
  assert (lines' = lines) as -> by congruence.
  assert (features' = features) as -> by congruence.
  match type of Hrows with ingest_rows ?d _ _ _ = _ => set (df1 := d) in * end.
  pose proof (ingest_rows_round_trip (tl lines) df1 asset features k row date
                i feature token) as Hback.
  rewrite Hrows in Hback. simpl in Hback.
  assert (entry_at df' date asset feature = Some (convert token)) as Hentry
    by (by apply Hback).
  split; [|by apply getData_entry_at].
  apply bool_decide_eq_true. unfold entry_at in Hentry.
  by destruct (StdMap.find date (data df')).
Qed.

(** *** Pruning and lookups *)

Lemma ordered_elem_find {V} (m : list (Z * V)) k v :
  StdMap.ordered m → (k, v) ∈ m → StdMap.find k m = Some v.
Proof.
  induction m as [|[k0 v0] m IH]; intros Hord Hin; [by apply elem_of_nil in Hin|].
  pose proof (ordered_app_notin [] k0 v0 m Hord) as [_ Hnotin].
  unfold StdMap.ordered, StdMap.forward in Hord. simpl in Hord.
  apply StronglySorted_cons in Hord as [_ Hord].
  apply elem_of_cons in Hin as [[= -> ->]|Hin]; simpl.
  - by rewrite Z.eqb_refl.
  - destruct (Z.eqb_spec k k0) as [->|_]; [|by apply IH].
    exfalso. apply Hnotin. apply list_elem_of_fmap. by exists (k0, v).
Qed.

Lemma find_Some_elem {V} (m : list (Z * V)) k v :
  StdMap.find k m = Some v → (k, v) ∈ m.
Proof.
  induction m as [|[k0 v0] m IH]; simpl; [done|].
  destruct (Z.eqb_spec k k0) as [->|_].
  - intros [= ->]. by left.
  - intros Hfind. right. by apply IH.
Qed.

Lemma filter_all_entries {A} (P : A → Prop) `{!∀ x, Decision (P x)} (l : list A) :
  (∀ x, x ∈ l → P x) → filter P l = l.
Proof.
  induction l as [|x l IH]; intros Hall; [done|].
  rewrite filter_cons, decide_True by (apply Hall; by left).
  f_equal. apply IH. intros y Hy. apply Hall. by right.
Qed.

(** X12.  [removeEmptyDates()] changes what [getData] returns on the dates
    it erases and on no other.  A date with a Row Store that is not empty
    keeps that Row Store, and [getData] answers from it as before.  On a date
    with an empty Row Store [getData] returned the value of [T temp {}]; the
    date is absent afterwards and [getData] returns what [T t;] leaves in
    [t].  A date that the table does not hold stays absent. *)
Theorem removeEmptyDates_then_getData df date asset feature :
  StdMap.ordered (data df) →
  (∀ dataObj, StdMap.find date (data df) = Some dataObj →
              Data.empty dataObj = false →
              StdMap.find date (data (removeEmptyDates df)) = Some dataObj
              ∧ containsDate (removeEmptyDates df) date = true
              ∧ getData df date asset feature = Data.getData dataObj asset feature
              ∧ getData (removeEmptyDates df) date asset feature
                = Data.getData dataObj asset feature)
  ∧ (∀ dataObj, StdMap.find date (data df) = Some dataObj →
                Data.empty dataObj = true →
                getData df date asset feature = Cxx.value_init
                ∧ containsDate (removeEmptyDates df) date = false
                ∧ getData (removeEmptyDates df) date asset feature = Cxx.default_init)
  ∧ (containsDate df date = false →
     containsDate (removeEmptyDates df) date = false
     ∧ getData (removeEmptyDates df) date asset feature = Cxx.default_init).
Proof.
  intros Hord.
  assert (StdMap.find date (data (removeEmptyDates df)) =
            StdMap.find date (data df) ≫=
              (λ dataObj, if Data.empty dataObj then None else Some dataObj)) as Hfind.
  { rewrite removeEmptyDates_filter by done.
    rewrite (find_filter (λ e, Data.empty e.2 = false)) by done.
    destruct (StdMap.find date (data df)) as [dataObj|]; simpl; [|done].
    by destruct (Data.empty dataObj). }
  unfold containsDate, getData. rewrite Hfind. split_and!.
  - intros dataObj -> Hemp. simpl. rewrite Hemp.
    split_and!; [done| |done..]. apply bool_decide_eq_true. by eexists.
  - intros dataObj -> Hemp. simpl. rewrite Hemp.
    split_and!; [|by apply bool_decide_eq_false; intros [? ?]|done].
    unfold Data.getData. by rewrite Hemp.
  - intros Habsent%bool_decide_eq_false.
    destruct (StdMap.find date (data df)) as [dataObj|]; simpl.
    + exfalso. apply Habsent. by eexists.
    + done.
Qed.

(** X13.  A row that is ingested under a header with at least one feature
    leaves no empty Row Store.  So when no Row Store of the table is empty
    and [fromCSV] returns after reading such a header, no Row Store is empty
    afterwards and [removeEmptyDates()] changes nothing. *)
Theorem fromCSV_with_features_leaves_no_empty_date
    fs df asset path lines corner features df' out :
  StdMap.ordered (data df) →
  (∀ date dataObj, StdMap.find date (data df) = Some dataObj →
                   Data.empty dataObj = false) →
  assetsToFeatures df !! asset = None →
  fs path = Some lines →
  Boost.tokenize (remove_invalid (hd EmptyString lines)) = Some (corner :: features) →
  features ≠ [] →
  fromCSV fs df asset path = ((df', out), Cxx.Normal) →
  (∀ date dataObj, StdMap.find date (data df') = Some dataObj →
                   Data.empty dataObj = false)
  ∧ removeEmptyDates df' = df'.
Proof.
  intros Hord Hfull Hasset Hfs Htok Hfeatures Hcsv.
  pose proof (fromCSV_Normal _ _ _ _ _ _ Hcsv) as (_ & _ & Hord').
  specialize (Hord' Hord).
  apply fromCSV_Normal_cases in Hcsv as [[Hin _]|Hopen].
  { rewrite Hasset in Hin. by destruct Hin. }
  destruct Hopen as (lines' & corner' & features' & _ & Hfs' & Htok' & _ & Hrows).
  assert (lines' = lines) as -> by congruence.
  assert (features' = features) as -> by congruence.
  match type of Hrows with ingest_rows ?d _ _ _ = _ => set (df1 := d) in * end.
  assert (∀ date dataObj, StdMap.find date (data df') = Some dataObj →
                          Data.empty dataObj = false) as Hfull'.
  { pose proof (ingest_rows_invariant
        (λ d, ∀ date dataObj, StdMap.find date (data d) = Some dataObj →
                              Data.empty dataObj = false)
        (formats df) asset features (tl lines)) as Hinv.
    replace df' with (ingest_rows df1 asset features (tl lines)).1
      by (by rewrite Hrows).
    apply Hinv; [|done..|by rewrite Hrows].
    intros d row _ Hd (dateString & rowData & Htok0 & Hlen)%ingest_row_Normal.
    destruct (ingest_row_find d asset features row _ _ Htok0 Hlen) as [_ Hfind].
    intros date dataObj. rewrite Hfind. case_decide; [|by apply Hd].
    intros [= <-]. apply bool_decide_eq_false. apply insert_pairs_not_empty.
    right. destruct features as [|f0 features0]; [done|].
    destruct rowData; [simpl in Hlen; lia|done]. }
  split; [exact Hfull'|].
  assert (data (removeEmptyDates df') = data df') as Hdata.
  { rewrite removeEmptyDates_filter by done.
    apply filter_all_entries. intros [k d] Hin. simpl.
    apply (Hfull' k). by apply ordered_elem_find. }
  destruct df' as [f a d]. unfold removeEmptyDates, with_data in *. simpl in *.
  by rewrite Hdata.
Qed.

(** *** The formats of a table *)


(** *** Two assets, in either order *)









End DataFrameMore.

(** ** From a day to the next *)

Section DayOfWeekMore.
Import Calendar.

Lemma day_number_next_day (d : Boost.date) :
  1 <= Boost.year d →
  1 <= Boost.month d <= 12 →
  1 <= Boost.day d <= days_in_month (Boost.year d) (Boost.month d) →
  day_number (next_day d) = day_number d + 1.
Proof.
  destruct d as [y m dd]. simpl. intros Hy Hm Hd.
  unfold next_day, day_number. simpl.
  destruct (Z.ltb_spec dd (days_in_month y m)) as [Hlt|Hge]; simpl; [lia|].
  assert (dd = days_in_month y m) as -> by lia.
  destruct (Z.ltb_spec m 12) as [Hm12|Hm12]; simpl.
  - replace (Z.to_nat (m + 1 - 1)) with (S (Z.to_nat (m - 1))) by lia.
    cbn [days_of_months].
    replace (Z.of_nat (S (Z.to_nat (m - 1)))) with m by lia. lia.
  - assert (m = 12) as -> by lia.
    replace (Z.to_nat (y + 1 - 1)) with (S (Z.to_nat (y - 1))) by lia.
    cbn [days_of_years].
    replace (Z.of_nat (S (Z.to_nat (y - 1)))) with y by lia.
    change (Z.to_nat (1 - 1)) with 0%nat. change (Z.to_nat (12 - 1)) with 11%nat.
    cbn [days_of_months].
    repeat match goal with
           | |- context [Z.of_nat ?e] =>
               let n := eval vm_compute in (Z.of_nat e) in
               change (Z.of_nat e) with n
           end.
    unfold days_in_month, days_in_year.
    repeat match goal with
           | |- context [Z.eqb ?a ?b] =>
               let n := eval vm_compute in (Z.eqb a b) in
               change (Z.eqb a b) with n
           end.
    cbn [orb]. cbv iota. destruct (is_leap_year y); lia.
Qed.

(** X14.  [getDayOfWeek] moves by one, from 6 back to 0, from each day to
    the next, through the ends of months, of February in leap years and in
    the others, and of years. *)
Theorem getDayOfWeek_next_day (d : Boost.date) :
  1 <= Boost.year d →
  1 <= Boost.month d <= 12 →
  1 <= Boost.day d <= days_in_month (Boost.year d) (Boost.month d) →
  DataFrame.getDayOfWeek (next_day d) = (DataFrame.getDayOfWeek d + 1) mod 7.
Proof.
  intros Hy Hm Hd.
  assert (1 <= Boost.year (next_day d) ∧ 1 <= Boost.month (next_day d) <= 12
          ∧ 1 <= Boost.day (next_day d)) as (Hy' & Hm' & Hd').
  { unfold next_day.
    destruct (Boost.day d <? _); [simpl; lia|].
    destruct (Z.ltb_spec (Boost.month d) 12); simpl; lia. }
  rewrite !getDayOfWeek_weekday by lia.
  unfold weekday. rewrite day_number_next_day by done.
  rewrite Z.add_mod_idemp_l by lia. f_equal. lia.
Qed.

End DayOfWeekMore.

(** ** The embedding at work *)

Section Runs.
Import Cxx Examples DataFrame.
Existing Instance simple_library.
Local Open Scope string_scope.

Example out_of_order_file_is_iterated_in_order :
  StdMap.forward (data loaded)
    = [ts 2020 1 1; ts 2020 1 2; ts 2020 1 3; Boost.not_a_date_time].
Proof. vm_compute. reflexivity. Qed.

Example loaded_values :
  getData loaded (ts 2020 1 1) "A" "Open" = Det 10
  ∧ getData loaded (ts 2020 1 1) "A" "Close" = Det 11
  ∧ getData loaded Boost.not_a_date_time "A" "Open" = Det 7.
Proof. vm_compute. done. Qed.

Example asset_of_path_strips_directory_and_extension :
  asset_of_path "./Testing1.csv" = "Testing1"
  ∧ asset_of_path "noext" = "noext".
Proof. vm_compute. done. Qed.

Lemma loaded_reachable : reachable loaded.
Proof.
  apply (reach_fromCSV disk DataFrame "A" "data/out_of_order.csv" loaded []);
    [apply reach_new | vm_compute; reflexivity].
Qed.

Lemma loaded_twice_reachable : reachable loaded_twice.
Proof.
  apply (reach_fromCSV_path disk loaded "dates_only.csv" loaded_twice []);
    [apply loaded_reachable | vm_compute; reflexivity].
Qed.

(** C5.  On the table of [out_of_order.csv], with [T = int]: a feature or
    an asset that the Row Store of a date does not hold reads as [0], the
    value of [T temp {}]; a date that the table does not hold reads as what
    [T t;] leaves in [t], which for [int] is indeterminate and not [0]. *)
Theorem getData_absent_date_is_indeterminate :
  getData loaded (ts 2020 1 1) "A" "Open" = Det 10
  ∧ getData loaded (ts 2020 1 1) "A" "Volume" = value_init
  ∧ getData loaded (ts 2020 1 1) "B" "Open" = value_init
  ∧ value_init = Det 0
  ∧ StdMap.find (ts 2020 1 9) (data loaded) = None
  ∧ getData loaded (ts 2020 1 9) "A" "Open" = Indeterminate
  ∧ getData loaded (ts 2020 1 9) "A" "Open" ≠ value_init.
Proof.
  assert (∃ dataObj,
            StdMap.find (ts 2020 1 1) (data loaded) = Some dataObj
            ∧ Data.entry dataObj "A" "Open" = Some (Det 10)
            ∧ Data.entry dataObj "A" "Volume" = None
            ∧ Data.entry dataObj "B" "Open" = None) as (dataObj & Hfind & Hopen & Hvol & Hb).
  { eexists. split; [vm_compute; reflexivity|]. vm_compute. done. }
  assert (StdMap.find (ts 2020 1 9) (data loaded) = None) as Habsent
    by (vm_compute; reflexivity).
  pose proof (getData_present_date loaded (ts 2020 1 1) dataObj "A" "Open" Hfind) as H1.
  pose proof (getData_present_date loaded (ts 2020 1 1) dataObj "A" "Volume" Hfind) as H2.
  pose proof (getData_present_date loaded (ts 2020 1 1) dataObj "B" "Open" Hfind) as H3.
  pose proof (getData_absent_date loaded (ts 2020 1 9) "A" "Open" Habsent) as H4.
  rewrite Hopen in H1. rewrite Hvol in H2. rewrite Hb in H3.
  split_and!; [exact H1 | exact H2 | exact H3 | reflexivity | exact Habsent | exact H4 |].
  rewrite H4. discriminate.
Qed.

(** C7.  [fromCSV("B", "missing.csv")] on the table of [out_of_order.csv],
    when no file [missing.csv] can be opened: the body writes its message and
    throws [std::exception] with the table as it was, and the function, which
    is [noexcept], ends the program instead of letting the exception out. *)
Theorem fromCSV_unopened_file_terminates :
  disk "missing.csv" = None
  ∧ containsAsset loaded "B" = false
  ∧ fromCSV_body disk loaded "B" "missing.csv" =
      ((loaded, ["Error opening file: missing.csv"]), Throws std_exception)
  ∧ fromCSV disk loaded "B" "missing.csv" =
      ((loaded, ["Error opening file: missing.csv"]), Aborts)
  ∧ (fromCSV disk loaded "B" "missing.csv").2 ≠ Throws std_exception.
Proof.
  assert (assetsToFeatures loaded !! "B" = None) as Hout by (vm_compute; reflexivity).
  destruct (fromCSV_unopened disk loaded "B" "missing.csv" Hout eq_refl) as [Hbody Hcall].
  split_and!; [done| |exact Hbody|exact Hcall|by rewrite Hcall].
  unfold containsAsset. rewrite Hout. apply bool_decide_eq_false. by intros [? ?].
Qed.

(** C3, as the spec has it, fails on the file [short_row.csv], which has a
    row with one value for two features: [fromCSV] does not return. *)
Lemma short_row_aborts_ingestion :
  disk "short_row.csv" = Some ["Date,Open,Close"; "2020-01-03,12"]
  ∧ (fromCSV disk (DataFrame (T := scalar Z)) "A" "short_row.csv").2 = Aborts
  ∧ (fromCSV disk (DataFrame (T := scalar Z)) "A" "short_row.csv").2 ≠ Normal.
Proof. vm_compute. split_and!; done. Qed.


Lemma setData_first_write_wins_witness :
  Data.entry (T := scalar Z) ∅ "A" "Open" = None
  ∧ Data.getData (Data.setData ∅ "A" "Open" (Det 10)) "A" "Open" = Det 10
  ∧ Data.getData (Data.setData (Data.setData ∅ "A" "Open" (Det 10)) "A" "Open" (Det 12))
      "A" "Open" = Det 10.
Proof.
  assert (Data.entry (T := scalar Z) ∅ "A" "Open" = None) as Habsent by reflexivity.
  destruct (setData_first_write_wins ∅ "A" "Open" (Det 10) Habsent)
    as (Hfirst & _ & Hsecond & _).
  split_and!; [exact Habsent | exact Hfirst | by apply Hsecond].
Defined.

Lemma iteration_in_timestamp_order_witness :
  reachable loaded_twice
  ∧ StronglySorted Z.lt (StdMap.forward (data loaded_twice))
  ∧ StronglySorted Z.gt (StdMap.backward (data loaded_twice)).
Proof.
  pose proof loaded_twice_reachable as Hreach.
  destruct (iteration_in_timestamp_order loaded_twice Hreach) as (Hup & Hdown & _).
  split_and!; [exact Hreach | exact Hup | exact Hdown].
Defined.

Lemma insertData_pairs_by_feature_index_witness :
  (ingest_row (T := scalar Z) DataFrame "A" ["Open"; "Close"] "2020-01-01,10,11,99").2
    = Normal
  ∧ ingest_row (T := scalar Z) DataFrame "A" ["Open"; "Close"] "2020-01-01,10,11"
    = ingest_row DataFrame "A" ["Open"; "Close"] "2020-01-01,10,11,99"
  ∧ (fromCSV disk (DataFrame (T := scalar Z)) "A" "short_row.csv").2 ≠ Normal.
Proof.
  destruct (insertData_pairs_by_feature_index (T := scalar Z)) as (Hfit & _ & Hshort).
  destruct (Hfit DataFrame "A" ["Open"; "Close"] "2020-01-01,10,11,99"
              "2020-01-01" ["10"; "11"; "99"] eq_refl) as (Hc & _ & _ & Hsame).
  { simpl. lia. }
  split_and!; [exact Hc | by apply Hsame |].
  apply (Hshort disk DataFrame "A" "short_row.csv"
           ["Date,Open,Close"; "2020-01-03,12"] "Date" ["Open"; "Close"]
           "2020-01-03,12" "2020-01-03" ["12"]);
    [reflexivity | reflexivity | reflexivity | simpl; by left | reflexivity
    | simpl; lia].
Defined.


Lemma fromCSV_duplicate_asset_is_noop_witness :
  containsAsset loaded "A" = true
  ∧ fromCSV disk loaded "A" "dates_only.csv" =
      ((loaded, ["Asset: A already exists"]), Normal)
  ∧ fromCSV (λ _, None) loaded "A" "nowhere.csv" =
      ((loaded, ["Asset: A already exists"]), Normal).
Proof.
  destruct (fromCSV_duplicate_asset_is_noop (T := scalar Z)) as [Hdup Hagain].
  assert (containsAsset loaded "A" = true) as Hin by (vm_compute; reflexivity).
  split_and!; [exact Hin | by apply Hdup |].
  apply (Hagain disk (λ _, None) DataFrame "A" "data/out_of_order.csv"
           "nowhere.csv" loaded []).
  vm_compute. reflexivity.
Defined.

Lemma loaded_twice_ordered : StdMap.ordered (data loaded_twice).
Proof. vm_compute. repeat constructor. Qed.

Lemma two_dates_ordered : StdMap.ordered (data two_dates).
Proof. vm_compute. repeat constructor. Qed.

Lemma removeEmptyDates_erases_empty_dates_witness :
  StdMap.ordered (data two_dates)
  ∧ data two_dates =
      [(ts 2020 1 4, ∅); (ts 2020 1 5, {[ "one_value" := {[ "Open" := Det 3 ]} ]})]
  ∧ size (removeEmptyDates two_dates) = 1%nat
  ∧ data (removeEmptyDates two_dates) =
      [(ts 2020 1 5, {[ "one_value" := {[ "Open" := Det 3 ]} ]})].
Proof.
  pose proof two_dates_ordered as Hord.
  assert (data two_dates =
            [(ts 2020 1 4, ∅); (ts 2020 1 5, {[ "one_value" := {[ "Open" := Det 3 ]} ]})])
    as Hdata by (vm_compute; reflexivity).
  destruct (removeEmptyDates_erases_empty_dates two_dates Hord) as (_ & _ & _ & _ & _ & Htwo).
  destruct (Htwo (ts 2020 1 4) ∅ (ts 2020 1 5) {[ "one_value" := {[ "Open" := Det 3 ]} ]})
    as [Hsize Hleft]; [by left | vm_compute; reflexivity ..|].
  split_and!; [exact Hord | exact Hdata | exact Hsize | exact Hleft].
Defined.

Lemma removeEmptyDates_idempotent_witness :
  StdMap.ordered (data loaded_twice)
  ∧ removeEmptyDates (removeEmptyDates loaded_twice) = removeEmptyDates loaded_twice.
Proof.
  pose proof loaded_twice_ordered as Hord.
  split; [exact Hord | by apply removeEmptyDates_idempotent].
Defined.

Lemma getDayOfWeek_correct_witness :
  Calendar.valid (Boost.mk_date 2026 10 30)
  ∧ getDayOfWeek (Boost.mk_date 2026 10 30) = Calendar.weekday (Boost.mk_date 2026 10 30)
  ∧ 0 <= getDayOfWeek (Boost.mk_date 2026 10 30) <= 6.
Proof.
  assert (Calendar.valid (Boost.mk_date 2026 10 30)) as Hvalid
    by (unfold Calendar.valid; cbn [Boost.year Boost.month Boost.day];
        change (Calendar.days_in_month 2026 10) with 31; lia).
  destruct (getDayOfWeek_correct _ Hvalid) as (Heq & Hrange & _).
  split_and!; [exact Hvalid | exact Heq | apply Hrange | apply Hrange].
Defined.

End Runs.

(** ** The further properties at work *)

Section MoreRuns.
Import Cxx Examples DataFrame.
Existing Instance simple_library.
Local Open Scope string_scope.

Lemma remove_invalid_keeps_printable_witness :
  Forall (λ c, 32 <= Z.of_N (N_of_ascii c) < 127) (list_ascii_of_string "2020-01-01,10,11")
  ∧ remove_invalid "2020-01-01,10,11" = "2020-01-01,10,11"
  ∧ remove_invalid (remove_invalid ("2020-01-01,10,11" +:+ String carriage_return ""))
      = remove_invalid ("2020-01-01,10,11" +:+ String carriage_return "").
Proof.
  assert (Forall (λ c, 32 <= Z.of_N (N_of_ascii c) < 127)
            (list_ascii_of_string "2020-01-01,10,11")) as Hprintable
    by (simpl; repeat constructor; vm_compute; discriminate).
  destruct (remove_invalid_keeps_printable "2020-01-01,10,11") as (_ & _ & _ & Hsame).
  destruct (remove_invalid_keeps_printable
              ("2020-01-01,10,11" +:+ String carriage_return "")) as (_ & _ & Hidem & _).
  split_and!; [exact Hprintable | by apply Hsame | exact Hidem].
Defined.


Lemma asset_of_path_is_the_base_name_witness :
  asset_of_path ("./data.d" +:+ String slash ("EUR.USD" +:+ String dot "csv")) = "EUR.USD"
  ∧ asset_of_path ("Testing1" +:+ String dot "csv") = "Testing1"
  ∧ asset_of_path ("./data.d" +:+ String slash "EUR_USD") = "EUR_USD".
Proof.
  destruct asset_of_path_is_the_base_name as (Hfull & Hfile & Hbare).
  split_and!.
  - apply Hfull; [by left | apply (bool_decide_unpack _); vm_compute; exact I ..].
  - apply Hfile; apply (bool_decide_unpack _); vm_compute; exact I.
  - apply Hbare; [by left | apply (bool_decide_unpack _); vm_compute; exact I].
Defined.

Lemma setData_touches_one_pair_witness :
  Data.getData (Data.setData {[ "A" := {[ "Open" := Det 1 ]} ]} "A" "Close" (Det 2))
    "A" "Open"
  = Data.getData (T := scalar Z) {[ "A" := {[ "Open" := Det 1 ]} ]} "A" "Open".
Proof.
  destruct (setData_touches_one_pair (T := scalar Z)
              {[ "A" := {[ "Open" := Det 1 ]} ]} "A" "Close" (Det 2)) as (Hother & _).
  apply Hother. intros [_ Habs]. discriminate Habs.
Defined.

Lemma setData_commutes_witness :
  Data.setData (Data.setData (T := scalar Z) ∅ "A" "Open" (Det 1)) "A" "Close" (Det 2)
  = Data.setData (Data.setData ∅ "A" "Close" (Det 2)) "A" "Open" (Det 1).
Proof.
  apply setData_commutes. intros [_ Habs]. discriminate Habs.
Defined.

Lemma fromCSV_returns_iff_witness :
  assetsToFeatures (DataFrame (T := scalar Z)) !! "A" = None
  ∧ ((fromCSV disk (DataFrame (T := scalar Z)) "A" "short_row.csv").2 = Normal
     ↔ ∃ lines corner features,
         disk "short_row.csv" = Some lines
         ∧ Boost.tokenize (remove_invalid (hd EmptyString lines)) = Some (corner :: features)
         ∧ ∀ row, row ∈ tl lines →
             ∃ dateString rowData,
               Boost.tokenize (remove_invalid row) = Some (dateString :: rowData)
               ∧ (length features ≤ length rowData)%nat).
Proof.
  assert (assetsToFeatures (DataFrame (T := scalar Z)) !! "A" = None) as Hnew
    by reflexivity.
  split; [exact Hnew|].
  exact (fromCSV_returns_iff disk DataFrame "A" "short_row.csv" Hnew).
Defined.

Lemma loaded_from_csv :
  fromCSV disk (DataFrame (T := scalar Z)) "A" "data/out_of_order.csv"
    = ((loaded, []), Normal).
Proof. vm_compute. reflexivity. Qed.

Lemma a_then_b_from_csv :
  fromCSV disk loaded "B" "one_value.csv" = ((a_then_b, []), Normal).
Proof. vm_compute. reflexivity. Qed.

Lemma fromCSV_registers_the_header_witness :
  containsAsset loaded "A" = true
  ∧ (∃ fset, getAssetAndFeatures loaded !! "A" = Some fset
             ∧ ∀ feature, feature ∈ fset ↔ feature ∈ ["Open"; "Close"])
  ∧ formats loaded = formats (DataFrame (T := scalar Z)).
Proof.
  destruct (fromCSV_registers_the_header disk DataFrame "A" "data/out_of_order.csv"
              ["Date,Open,Close"; "2020-01-03,12,13"; "2020-01-01,10,11,99";
               "2020-01-02,11,12"; "tomorrow,7,8"; "yesterday,5,6"]
              "Date" ["Open"; "Close"] loaded [])
    as (Hin & Hset & _ & Hformats & _);
    [reflexivity | reflexivity | reflexivity | exact loaded_from_csv |].
  split_and!; [exact Hin | exact Hset | exact Hformats].
Defined.

Lemma fromCSV_keeps_what_the_table_holds_witness :
  entry_at loaded (ts 2020 1 1) "A" "Open" = Some (Det 10)
  ∧ getData a_then_b (ts 2020 1 1) "A" "Open" = Det 10
  ∧ (containsDate loaded (ts 2020 1 3) = true → containsDate a_then_b (ts 2020 1 3) = true).
Proof.
  destruct (fromCSV_keeps_what_the_table_holds disk loaded "B" "one_value.csv"
              a_then_b [] a_then_b_from_csv) as (Hkept & Hdates & _).
  assert (entry_at loaded (ts 2020 1 1) "A" "Open" = Some (Det 10)) as Hentry
    by (vm_compute; reflexivity).
  split_and!; [exact Hentry | exact (proj2 (Hkept _ _ _ _ Hentry)) | apply Hdates].
Defined.

Lemma fromCSV_dates_witness :
  (size loaded ≤ size a_then_b ≤ size loaded + 1)%nat.
Proof.
  destruct (fromCSV_dates disk loaded "B" "one_value.csv"
              ["Date,Open"; "2020-01-05,3"] a_then_b []) as (_ & Hsize);
    [vm_compute; reflexivity | reflexivity | exact a_then_b_from_csv |].
  exact Hsize.
Defined.

Lemma fromCSV_then_getData_witness :
  containsDate loaded (ts 2020 1 1) = true
  ∧ getData loaded (ts 2020 1 1) "A" "Close" = convert "11".
Proof.
  apply (fromCSV_then_getData disk DataFrame "A" "data/out_of_order.csv"
           ["Date,Open,Close"; "2020-01-03,12,13"; "2020-01-01,10,11,99";
            "2020-01-02,11,12"; "tomorrow,7,8"; "yesterday,5,6"]
           "Date" ["Open"; "Close"] loaded [] 1 "2020-01-01,10,11,99" (ts 2020 1 1)
           1 "Close" "11");
    [reflexivity | reflexivity | reflexivity | exact loaded_from_csv | reflexivity
    | vm_compute; reflexivity | | reflexivity | reflexivity | | reflexivity].
  - intros j row' Hj Hrow'. assert (j = 0%nat) as -> by lia.
    simpl in Hrow'. injection Hrow' as <-. vm_compute. discriminate.
  - intros j Hj. assert (j = 0%nat) as -> by lia. simpl. discriminate.
Defined.

Lemma removeEmptyDates_then_getData_witness :
  StdMap.ordered (data two_dates)
  ∧ getData two_dates (ts 2020 1 4) "one_value" "Open" = value_init
  ∧ containsDate (removeEmptyDates two_dates) (ts 2020 1 4) = false
  ∧ getData (removeEmptyDates two_dates) (ts 2020 1 4) "one_value" "Open" = default_init
  ∧ getData (removeEmptyDates two_dates) (ts 2020 1 5) "one_value" "Open" = Det 3.
Proof.
  pose proof two_dates_ordered as Hord.
  destruct (removeEmptyDates_then_getData two_dates (ts 2020 1 4) "one_value" "Open" Hord)
    as (_ & Herased & _).
  destruct (removeEmptyDates_then_getData two_dates (ts 2020 1 5) "one_value" "Open" Hord)
    as (Hkept & _).
  destruct (Herased ∅) as (Hbefore & Hgone & Hafter); [vm_compute; reflexivity ..|].
  destruct (Hkept {[ "one_value" := {[ "Open" := Det 3 ]} ]})
    as (_ & _ & _ & Hread); [vm_compute; reflexivity ..|].
  split_and!; [exact Hord | exact Hbefore | exact Hgone | exact Hafter |].
  rewrite Hread. vm_compute. reflexivity.
Defined.

Lemma loaded_ordered : StdMap.ordered (data loaded).
Proof. vm_compute. repeat constructor. Qed.

Lemma loaded_no_empty_store :
  Forall (λ e : Z * gmap string (gmap string (scalar Z)), Data.empty e.2 = false)
    (data loaded).
Proof. apply (bool_decide_unpack _). vm_compute. exact I. Qed.

Lemma fromCSV_with_features_leaves_no_empty_date_witness :
  removeEmptyDates a_then_b = a_then_b.
Proof.
  apply (fromCSV_with_features_leaves_no_empty_date disk loaded "B" "one_value.csv"
           ["Date,Open"; "2020-01-05,3"] "Date" ["Open"] a_then_b []);
    [exact loaded_ordered | | vm_compute; reflexivity | reflexivity | reflexivity
    | discriminate | exact a_then_b_from_csv].
  intros date dataObj Hfind%find_Some_elem.
  pose proof loaded_no_empty_store as Hall.
  rewrite Forall_forall in Hall. exact (Hall _ Hfind).
Defined.

Lemma getDayOfWeek_next_day_witness :
  getDayOfWeek (Calendar.next_day (Boost.mk_date 2019 12 31))
  = (getDayOfWeek (Boost.mk_date 2019 12 31) + 1) mod 7.
Proof.
  apply getDayOfWeek_next_day; cbn [Boost.year Boost.month Boost.day]; [lia | lia |].
  change (Calendar.days_in_month 2019 12) with 31. lia.
Defined.



End MoreRuns.
